(** * mcp-dnstwist: the [fuzz_domain] tool handler of [src/index.ts]

    A shallow embedding of the request validator [isFuzzDomainArgs], of the
    argument construction and the [docker run] invocation of the
    [CallToolRequestSchema] handler, of [execCommand] and of [ensureSetup],
    together with the properties the specification states about them.

    JavaScript values are an inductive type, the payload object a finite map
    from property names to values.  An [async] function is a function from
    the state of the machine to a returned or thrown value and a new state;
    [try]/[catch] and [await] are combinators on such functions.  What comes
    from outside the repository - [child_process.exec], [JSON], the SDK's
    [McpError] - is a parameter [Runtime] of the handler; a reference
    runtime instantiates it for concrete runs.  The start of the process
    (the constructor, [run], the signal handler) and the lines written with
    [console.error] are not part of the embedding. *)

From Stdlib Require Import ZArith Ascii String List Lia Bool.
From stdpp Require Import base option gmap strings list fin_maps.

Local Open Scope string_scope.
Local Open Scope list_scope.

(** ** JavaScript values *)

Module Js.

(** A JavaScript number as the handler can observe it ([typeof], truthiness
    and [toString]).  [NumInt z] is the number the integer literal [z]
    denotes: the double nearest to [z], ties to the even mantissa, which is
    [z] itself up to 2^53 and an infinity past the largest double (both
    zeroes are [NumInt 0]).  [NumOther text] is any other finite double,
    non-zero, given by the text [Number.prototype.toString] prints for it
    (for instance 1.5). *)
Inductive JsNumber : Type :=
  | NumInt (z : Z)
  | NumNaN
  | NumInfinity (negative : bool)
  | NumOther (text : string).

(** The payload of a request: what [unknown] can hold.  [JUndefined] is the
    value of a missing property and of missing [arguments]. *)
#[warnings="-register-all"]
Inductive JsValue : Type :=
  | JUndefined
  | JNull
  | JBoolean (b : bool)
  | JNumber (n : JsNumber)
  | JString (s : string)
  | JArray (items : list JsValue)
  | JObject (fields : gmap string JsValue).

(** Decimal digits of a natural number, most significant first. *)
Fixpoint digits_fuel (fuel : nat) (n : N) (acc : string) : string :=
  match fuel with
  | O => acc
  | S fuel' =>
      let d := Ascii.ascii_of_N (48 + N.modulo n 10) in
      let acc' := String d acc in
      match N.div n 10 with
      | 0%N => acc'
      | q => digits_fuel fuel' q acc'
      end
  end.

Definition decimal_of_N (n : N) : string :=
  digits_fuel (S (N.to_nat (N.log2 n))) n EmptyString.

Definition two53 : N := 9007199254740992.

(** The double nearest to an integer [n] from 2^53 on, ties to even: its
    mantissa [m] and exponent [e], with the value [m * 2^e] and
    [2^52 <= m < 2^53]; nothing past the largest double. *)
Definition nearest_double (n : N) : option (N * N) :=
  let e := (N.log2 n + 1 - 53)%N in
  let m0 := N.shiftr n e in
  let rest := (n - N.shiftl m0 e)%N in
  let half := N.shiftl 1 (e - 1) in
  let m := if N.ltb half rest || (N.eqb rest half && N.odd m0)
           then (m0 + 1)%N else m0 in
  let '(m, e) := if N.eqb m two53 then (N.shiftr two53 1, (e + 1)%N) else (m, e) in
  if N.ltb 971 e then None else Some (m, e).

(** The multiples [s * 10^p] that read back as the double, for a given [p]:
    the least and the greatest [s].  The bounds and the target are doubled,
    so that the half steps to the neighbours are integers; the ends belong
    to the interval when the mantissa is even. *)
Definition candidates (low2 high2 : N) (inclusive : bool) (p : N) : N * N :=
  let unit := (2 * 10 ^ p)%N in
  if inclusive then (N.div (low2 + unit - 1) unit, N.div high2 unit)
  else ((N.div low2 unit + 1)%N, N.div (high2 - 1) unit).

(** Among [lo .. hi] the [s] with [s * 10^p] nearest to the double, the even
    one of two. *)
Definition closest (target2 unit lo hi : N) : N :=
  let q := N.div target2 unit in
  let r := N.modulo target2 unit in
  let s := if N.ltb (2 * r) unit then q
           else if N.ltb unit (2 * r) then (q + 1)%N
           else if N.even q then q else (q + 1)%N in
  N.max lo (N.min hi s).

(** The shortest digits: the greatest [p], from [fuel] down, for which some
    [s * 10^p] reads back as the double, and the [s] nearest to it. *)
Fixpoint shortest (fuel : nat) (low2 high2 target2 : N) (inclusive : bool) : N * N :=
  let p := N.of_nat fuel in
  let '(lo, hi) := candidates low2 high2 inclusive p in
  if N.leb lo hi then (closest target2 (2 * 10 ^ p) lo hi, p)
  else
    match fuel with
    | O => (N.div target2 2, 0%N)
    | S fuel' => shortest fuel' low2 high2 target2 inclusive
    end.

Fixpoint zeros (n : nat) : string :=
  match n with
  | O => EmptyString
  | S n' => String "0" (zeros n')
  end.

(** [d.ddde+n] *)
Definition exponent_text (digits : string) (n : N) : string :=
  match digits with
  | EmptyString => EmptyString
  | String first EmptyString =>
      String first EmptyString +:+ "e+" +:+ decimal_of_N (n - 1)
  | String first rest =>
      String first EmptyString +:+ "." +:+ rest +:+ "e+" +:+ decimal_of_N (n - 1)
  end.

(** [Number::toString] for the double nearest to a positive integer: the
    integer's digits below 2^53; from there on the shortest digits [s] that
    read back as the same double, followed by zeros while the number has at
    most 21 digits and by an exponent beyond. *)
Definition integer_text (n : N) : string :=
  if N.ltb n two53 then decimal_of_N n
  else
    match nearest_double n with
    | None => "Infinity"
    | Some (m, e) =>
        let target2 := (2 * m * 2 ^ e)%N in
        let high2 := (target2 + 2 ^ e)%N in
        let low2 := (target2 - (if N.eqb m (N.shiftr two53 1)
                                then 2 ^ (e - 1) else 2 ^ e))%N in
        let fuel := N.to_nat (N.log2 high2 / 3 + 1) in
        let '(s, p) := shortest fuel low2 high2 target2 (N.even m) in
        let digits := decimal_of_N s in
        let n := (N.of_nat (String.length digits) + p)%N in
        if N.leb n 21 then digits +:+ zeros (N.to_nat p)
        else exponent_text digits n
    end.

(** [Number.prototype.toString] (radix 10). *)
Definition Number_toString (n : JsNumber) : string :=
  match n with
  | NumInt z =>
      match z with
      | Z0 => "0"
      | Zpos p => integer_text (Npos p)
      | Zneg p => "-" +:+ integer_text (Npos p)
      end
  | NumNaN => "NaN"
  | NumInfinity false => "Infinity"
  | NumInfinity true => "-Infinity"
  | NumOther text => text
  end.

(** [ToBoolean]: the falsy values are undefined, null, false, 0, NaN and
    the empty string. *)
Definition number_truthy (n : JsNumber) : bool :=
  match n with
  | NumInt z => negb (Z.eqb z 0)
  | NumNaN => false
  | NumInfinity _ => true
  | NumOther _ => true
  end.

Definition string_truthy (s : string) : bool :=
  match s with
  | EmptyString => false
  | String _ _ => true
  end.

Definition truthy (v : JsValue) : bool :=
  match v with
  | JUndefined | JNull => false
  | JBoolean b => b
  | JNumber n => number_truthy n
  | JString s => string_truthy s
  | JArray _ | JObject _ => true
  end.

(** The [typeof] operator. *)
Inductive TypeTag : Type :=
  | TUndefined | TObject | TBoolean | TNumber | TString.

Definition typeof (v : JsValue) : TypeTag :=
  match v with
  | JUndefined => TUndefined
  | JNull => TObject
  | JBoolean _ => TBoolean
  | JNumber _ => TNumber
  | JString _ => TString
  | JArray _ => TObject
  | JObject _ => TObject
  end.

Definition TypeTag_eqb (a b : TypeTag) : bool :=
  match a, b with
  | TUndefined, TUndefined | TObject, TObject | TBoolean, TBoolean
  | TNumber, TNumber | TString, TString => true
  | _, _ => false
  end.

(** Property access [a.key] for the keys the handler reads: none of them is
    an index, [length] or a member of a prototype, so only the own fields of
    an object answer. *)
Definition get (a : JsValue) (key : string) : JsValue :=
  match a with
  | JObject fields => default JUndefined (fields !! key)
  | _ => JUndefined
  end.

Definition is_undefined (v : JsValue) : bool :=
  match v with JUndefined => true | _ => false end.

(** [Array.prototype.includes] on an array of string literals. *)
Definition includes (xs : list string) (v : JsValue) : bool :=
  match v with
  | JString s => existsb (String.eqb s) xs
  | _ => false
  end.

(** [String.prototype.includes]. *)
Fixpoint String_includes (text part : string) : bool :=
  String.prefix part text ||
  match text with
  | EmptyString => false
  | String _ text' => String_includes text' part
  end.

(** [Array.prototype.join]. *)
Fixpoint join (sep : string) (xs : list string) : string :=
  match xs with
  | [] => EmptyString
  | [x] => x
  | x :: rest => x +:+ sep +:+ join sep rest
  end.

End Js.

Import Js.

(** ** The request type and its type guard *)

(** [format?: 'json' | 'csv' | 'list'] *)
Inductive Format : Type := Fjson | Fcsv | Flist.

Definition Format_text (f : Format) : string :=
  match f with
  | Fjson => "json"
  | Fcsv => "csv"
  | Flist => "list"
  end.

(** [interface FuzzDomainArgs]; an optional field is an [option]. *)
Record FuzzDomainArgs : Type := {
  domain : string;
  nameservers : option string;
  threads : option JsNumber;
  format : option Format;
  registered_only : option bool;
  mxcheck : option bool;
  ssdeep : option bool;
  banners : option bool
}.

(** [function isFuzzDomainArgs(args: unknown): args is FuzzDomainArgs] *)
Definition isFuzzDomainArgs (args : JsValue) : bool :=
  if negb (truthy args) || negb (TypeTag_eqb (typeof args) TObject) then false
  else
    let a := get args in
    TypeTag_eqb (typeof (a "domain")) TString &&
    (is_undefined (a "nameservers") || TypeTag_eqb (typeof (a "nameservers")) TString) &&
    (is_undefined (a "threads") || TypeTag_eqb (typeof (a "threads")) TNumber) &&
    (is_undefined (a "format") || includes ["json"; "csv"; "list"] (a "format")) &&
    (is_undefined (a "registered_only") || TypeTag_eqb (typeof (a "registered_only")) TBoolean) &&
    (is_undefined (a "mxcheck") || TypeTag_eqb (typeof (a "mxcheck")) TBoolean) &&
    (is_undefined (a "ssdeep") || TypeTag_eqb (typeof (a "ssdeep")) TBoolean) &&
    (is_undefined (a "banners") || TypeTag_eqb (typeof (a "banners")) TBoolean).

(** What the type predicate [args is FuzzDomainArgs] asserts: the payload
    read at the declared types.  Each reader answers [None] when the value
    is not of the declared type, [Some None] when the field is undefined. *)
Definition read_string (v : JsValue) : option string :=
  match v with JString s => Some s | _ => None end.

Definition read_number (v : JsValue) : option JsNumber :=
  match v with JNumber n => Some n | _ => None end.

Definition read_boolean (v : JsValue) : option bool :=
  match v with JBoolean b => Some b | _ => None end.

Definition read_format (v : JsValue) : option Format :=
  match v with
  | JString s =>
      if String.eqb s "json" then Some Fjson
      else if String.eqb s "csv" then Some Fcsv
      else if String.eqb s "list" then Some Flist
      else None
  | _ => None
  end.

Definition optional {A : Type} (read : JsValue -> option A) (v : JsValue)
  : option (option A) :=
  match v with
  | JUndefined => Some None
  | _ => match read v with Some x => Some (Some x) | None => None end
  end.

Definition as_FuzzDomainArgs (args : JsValue) : option FuzzDomainArgs :=
  match args with
  | JObject _ =>
      d ← read_string (get args "domain");
      ns ← optional read_string (get args "nameservers");
      t ← optional read_number (get args "threads");
      f ← optional read_format (get args "format");
      ro ← optional read_boolean (get args "registered_only");
      mx ← optional read_boolean (get args "mxcheck");
      ss ← optional read_boolean (get args "ssdeep");
      b ← optional read_boolean (get args "banners");
      Some {| domain := d; nameservers := ns; threads := t; format := f;
              registered_only := ro; mxcheck := mx; ssdeep := ss; banners := b |}
  | _ => None
  end.

(** ** Defaults and argument construction (handler, lines 194-216) *)

(** The bindings of the destructuring assignment: every field has a value. *)
Record AnalysisRequest : Type := {
  req_domain : string;
  req_nameservers : string;
  req_threads : JsNumber;
  req_format : Format;
  req_registered_only : bool;
  req_mxcheck : bool;
  req_ssdeep : bool;
  req_banners : bool
}.

(** [const { domain, nameservers = '1.1.1.1', threads = 50, ... } = args] *)
Definition destructure (a : FuzzDomainArgs) : AnalysisRequest :=
  {| req_domain := domain a;
     req_nameservers := default "1.1.1.1" (nameservers a);
     req_threads := default (NumInt 50) (threads a);
     req_format := default Fjson (format a);
     req_registered_only := default true (registered_only a);
     req_mxcheck := default true (mxcheck a);
     req_ssdeep := default false (ssdeep a);
     req_banners := default true (banners a) |}.

(** [args.push(...items)] returns nothing and extends [args] at its end. *)
Definition push (args : list string) (items : list string) : list string :=
  args ++ items.

Definition build_args (r : AnalysisRequest) : list string :=
  let args := [req_domain r; "--format"; Format_text (req_format r)] in
  let args := if req_registered_only r then push args ["--registered"] else args in
  let args := if string_truthy (req_nameservers r)
              then push args ["--nameservers"; req_nameservers r] else args in
  let args := if number_truthy (req_threads r)
              then push args ["-t"; Number_toString (req_threads r)] else args in
  let args := if req_mxcheck r then push args ["--mxcheck"] else args in
  let args := if req_ssdeep r then push args ["--ssdeep"] else args in
  let args := if req_banners r then push args ["-b"] else args in
  args.

Definition DOCKER_IMAGE : string := "elceef/dnstwist".

(** [`docker run --rm ${DOCKER_IMAGE} ${args.join(' ')}`] *)
Definition docker_run_command (args : list string) : string :=
  "docker run --rm " +:+ DOCKER_IMAGE +:+ " " +:+ join " " args.

(** The three commands [ensureSetup] can run. *)
Definition setup_commands : list string :=
  ["docker --version";
   "docker image inspect " +:+ DOCKER_IMAGE;
   "docker pull " +:+ DOCKER_IMAGE].

(** ** Notions the specification uses *)

(** How a field of the narrowed value relates to the payload. *)
Definition narrowed {A : Type} (read : JsValue -> option A) (v : JsValue)
    (field : option A) : Prop :=
  (v = JUndefined /\ field = None) \/ (exists x, read v = Some x /\ field = Some x).

(** A binding of the destructuring assignment: the default where the payload
    has no such field, the field's value otherwise. *)
Definition bound {A : Type} (inject : A -> JsValue) (v : JsValue) (dflt value : A)
  : Prop :=
  (v = JUndefined /\ value = dflt) \/ v = inject value.

(** The tokens the rows of the mapping table of the Command Builder can
    contribute for a request. *)
Definition table_tokens (r : AnalysisRequest) : list string :=
  [req_domain r; "--format"; Format_text (req_format r);
   "--registered";
   "--nameservers"; req_nameservers r;
   "-t"; Number_toString (req_threads r);
   "--mxcheck"; "--ssdeep"; "-b"].

(** What a boolean row of the table contributes. *)
Definition flag (on : bool) (name : string) : list string :=
  if on then [name] else [].

(** The boolean rows of the table: the flag and the field that asks for it. *)
Definition boolean_rows (r : AnalysisRequest) : list (string * bool) :=
  [("--registered", req_registered_only r);
   ("--mxcheck", req_mxcheck r);
   ("--ssdeep", req_ssdeep r);
   ("-b", req_banners r)].

(** [x] occurs in [l] with [y] right after it. *)
Definition followed_by (x y : string) (l : list string) : Prop :=
  exists before after, l = before ++ x :: y :: after.

(** The blanks at which [/bin/sh] splits a line: space, tab and newline. *)
Definition is_blank (c : ascii) : bool :=
  let n := Ascii.nat_of_ascii c in
  Nat.eqb n 32 || Nat.eqb n 9 || Nat.eqb n 10.

(** The words of a command line that has no quotes, escapes, expansions or
    operators: [/bin/sh], which [exec] hands the command to, splits it at
    the blanks. *)
Fixpoint shell_words_from (word : string) (line : string) : list string :=
  let close := match word with EmptyString => [] | _ => [word] end in
  match line with
  | EmptyString => close
  | String c line' =>
      if is_blank c then close ++ shell_words_from EmptyString line'
      else shell_words_from (word +:+ String c EmptyString) line'
  end.

Definition shell_words (line : string) : list string :=
  shell_words_from EmptyString line.

(** ** Exceptions, the runtime and the handler's monad *)

(** A thrown value: an instance of [Error] with its [name] and [message],
    or anything else, given by what [String(error)] prints for it. *)
Inductive Thrown : Type :=
  | ErrorObject (name message : string)
  | NonError (shown : string).

(** The two members of the SDK's [ErrorCode] the handler uses. *)
Inductive ErrorCode : Type := MethodNotFound | InvalidParams.

(** The promise [execAsync] returns settles in one of two ways. *)
Inductive ExecOutcome : Type :=
  | Resolved (stdout stderr : string)
  | Rejected (error : Thrown).

(** What the handler takes from Node, from Docker and from the MCP SDK.
    [World] is the state of the machine the commands act on, [Parsed] the
    values [JSON.parse] yields (the handler declares them [DnstwistResult[]]
    and hands them to [JSON.stringify] unread).
    - [execAsync command maxBuffer] is [promisify(exec)(command, { maxBuffer })];
    - [JSON_parse text] is the parsed value, or the message of the
      [SyntaxError] it throws;
    - [JSON_stringify results] is [JSON.stringify(results, null, 2)];
    - [McpError_message code message] is the [message] property of
      [new McpError(code, message)]. *)
Record Runtime (World Parsed : Type) : Type := {
  execAsync : string -> N -> World -> ExecOutcome * World;
  JSON_parse : string -> string + Parsed;
  JSON_stringify : Parsed -> string;
  McpError_message : ErrorCode -> string -> string
}.

Arguments execAsync {World Parsed} _ _ _ _.
Arguments JSON_parse {World Parsed} _ _.
Arguments JSON_stringify {World Parsed} _ _.
Arguments McpError_message {World Parsed} _ _ _.

(** [String(error)], which [`${error}`] calls: [Error.prototype.toString]
    for an instance of [Error]. *)
Definition String_of (error : Thrown) : string :=
  match error with
  | ErrorObject name EmptyString => name
  | ErrorObject name message => name +:+ ": " +:+ message
  | NonError shown => shown
  end.

(** [new Error(message)] *)
Definition Error (message : string) : Thrown := ErrorObject "Error" message.

(** The machine together with the commands handed to [execAsync] so far,
    oldest first. *)
Record State (World : Type) : Type := {
  world : World;
  issued : list string
}.

Arguments world {World} _.
Arguments issued {World} _.
Arguments Build_State {World} _ _.

(** An [async] computation: it runs on a state and either returns or throws. *)
Definition Async (World A : Type) : Type :=
  State World -> (Thrown + A) * State World.

Definition ret {W A : Type} (x : A) : Async W A :=
  fun st => (inr x, st).

Definition throw {W A : Type} (e : Thrown) : Async W A :=
  fun st => (inl e, st).

Definition bind {W A B : Type} (m : Async W A) (k : A -> Async W B) : Async W B :=
  fun st =>
    match m st with
    | (inr x, st') => k x st'
    | (inl e, st') => (inl e, st')
    end.

(** [try { body } catch (error) { handler }] *)
Definition try_catch {W A : Type} (body : Async W A) (handler : Thrown -> Async W A)
  : Async W A :=
  fun st =>
    match body st with
    | (inr x, st') => (inr x, st')
    | (inl e, st') => handler e st'
    end.

Declare Scope async_scope.
Delimit Scope async_scope with async.
Notation "x <~ m ;; k" := (bind m (fun x => k))
  (at level 100, m at next level, right associativity) : async_scope.
Notation "m ;;; k" := (bind m (fun _ => k))
  (at level 100, right associativity) : async_scope.

(** ** Requests and results of [tools/call] *)

Record CallToolRequest : Type := {
  params_name : string;
  params_arguments : JsValue
}.

Record TextContent : Type := {
  type : string;
  text : string
}.

(** The object the handler returns; [isError] is [None] where the object
    has no such property. *)
Record CallToolResult : Type := {
  content : list TextContent;
  isError : option bool
}.

Section Server.

Context {World Parsed : Type}.
Variable rt : Runtime World Parsed.

Local Open Scope async_scope.

(** [await execAsync(command, { maxBuffer: 10 * 1024 * 1024 })] *)
Definition await_execAsync (command : string) (maxBuffer : N)
  : Async World (string * string) :=
  fun st =>
    let '(outcome, w) := execAsync rt command maxBuffer (world st) in
    let st' := {| world := w; issued := issued st ++ [command] |} in
    match outcome with
    | Resolved stdout stderr => (inr (stdout, stderr), st')
    | Rejected error => (inl error, st')
    end.

(** [private async execCommand(command)]; the [console.error] lines write
    to the log only. *)
Definition execCommand (command : string) : Async World (string * string) :=
  try_catch
    (result <~ await_execAsync command (10 * 1024 * 1024) ;;
     ret result)
    (fun error => throw error).

(** [private async ensureSetup()] *)
Definition ensureSetup : Async World unit :=
  try_catch
    (try_catch
       (execCommand "docker --version" ;;; ret tt)
       (fun _ => throw (Error
          "Docker is not installed or not running. Please install Docker and try again.")) ;;;
     try_catch
       (execCommand ("docker image inspect " +:+ DOCKER_IMAGE) ;;; ret tt)
       (fun _ => execCommand ("docker pull " +:+ DOCKER_IMAGE) ;;; ret tt))
    (fun error => throw error).

(** [new McpError(code, message)] *)
Definition McpError (code : ErrorCode) (message : string) : Thrown :=
  ErrorObject "McpError" (McpError_message rt code message).

(** [JSON.parse(text)] *)
Definition JSON_parse_call (text : string) : Async World Parsed :=
  match JSON_parse rt text with
  | inr value => ret value
  | inl message => throw (ErrorObject "SyntaxError" message)
  end.

(** The end of the [try] block (lines 223-237): from the captured [stdout]
    to the result. *)
Definition translate (stdout : string) : Async World CallToolResult :=
  results <~ try_catch
               (JSON_parse_call stdout)
               (fun error => throw (Error ("Failed to parse dnstwist output: "
                                           +:+ String_of error))) ;;
  ret {| content := [ {| type := "text"; text := JSON_stringify rt results |} ];
         isError := None |}.

(** The [try] block of the [CallToolRequestSchema] handler.  Past the guard
    [request.params.arguments] has the type [FuzzDomainArgs]: the payload is
    read at that type. *)
Definition callTool_try (request : CallToolRequest) : Async World CallToolResult :=
  ensureSetup ;;;
  (if negb (String.eqb (params_name request) "fuzz_domain")
   then throw (McpError MethodNotFound ("Unknown tool: " +:+ params_name request))
   else ret tt) ;;;
  match (if isFuzzDomainArgs (params_arguments request)
         then as_FuzzDomainArgs (params_arguments request) else None) with
  | None => throw (McpError InvalidParams "Invalid arguments for fuzz_domain")
  | Some arguments =>
      let args := build_args (destructure arguments) in
      out <~ execCommand (docker_run_command args) ;;
      let stdout := fst out in
      translate stdout
  end.

(** [error instanceof Error ? error.message : String(error)] *)
Definition errorMessage (error : Thrown) : string :=
  match error with
  | ErrorObject _ message => message
  | NonError shown => shown
  end.

(** The handler registered for [CallToolRequestSchema]. *)
Definition callTool (request : CallToolRequest) : Async World CallToolResult :=
  try_catch
    (callTool_try request)
    (fun error =>
       ret {| content := [ {| type := "text";
                              text := "Error executing dnstwist: " +:+ errorMessage error |} ];
              isError := Some true |}).

End Server.

(** ** Notions for the handler's properties *)

(** The result of the [catch] block for a thrown value: one text item, the
    prefix and the message, and the error flag. *)
Definition error_result (error : Thrown) : CallToolResult :=
  {| content := [ {| type := "text";
                     text := "Error executing dnstwist: " +:+ errorMessage error |} ];
     isError := Some true |}.

Definition MAX_BUFFER : N := 10 * 1024 * 1024.

(** The state once [command] has been handed to [execAsync] and has left
    the machine as [w]. *)
Definition after {World : Type} (st : State World) (w : World) (command : string)
  : State World :=
  {| world := w; issued := issued st ++ [command] |}.

Definition docker_version : string := "docker --version".
Definition docker_image_inspect : string := "docker image inspect " +:+ DOCKER_IMAGE.
Definition docker_pull : string := "docker pull " +:+ DOCKER_IMAGE.

Ltac unfold_async :=
  unfold try_catch, bind, ret, throw, await_execAsync in *.

Ltac unfold_commands :=
  unfold docker_version, docker_image_inspect, docker_pull, MAX_BUFFER in *.

Ltac destruct_readings :=
  repeat match goal with
  | |- context [read_string ?v] => destruct (read_string v); cbn
  | |- context [optional ?r ?v] => destruct (optional r v); cbn
  end.

(** ** A reference runtime

    Node's [JSON.parse] and [JSON.stringify], the SDK's [McpError] and a
    machine with Docker, to run the handler on concrete requests. *)

Module Node.

Definition LF : string := String (Ascii.ascii_of_nat 10) EmptyString.

(** A JSON document.  Number and string tokens are kept as written, members
    in the order written. *)
#[warnings="-register-all"]
Inductive Json : Type :=
  | JsonNull
  | JsonBool (b : bool)
  | JsonNumber (literal : string)
  | JsonString (raw : string)
  | JsonArray (items : list Json)
  | JsonObject (members : list (string * Json)).

Inductive SyntaxError : Type :=
  | UnexpectedEnd
  | UnexpectedToken (c : ascii) (position : nat).

Definition Scan (A : Type) : Type := SyntaxError + (A * (string * nat)).

Definition dquote : ascii := Ascii.ascii_of_nat 34.

Definition is_ws (c : ascii) : bool :=
  let n := Ascii.nat_of_ascii c in
  Nat.eqb n 32 || Nat.eqb n 9 || Nat.eqb n 10 || Nat.eqb n 13.

Definition is_digit (c : ascii) : bool :=
  let n := Ascii.nat_of_ascii c in Nat.leb 48 n && Nat.leb n 57.

Definition is_hex (c : ascii) : bool :=
  let n := Ascii.nat_of_ascii c in
  is_digit c || (Nat.leb 65 n && Nat.leb n 70) || (Nat.leb 97 n && Nat.leb n 102).

Definition is_control (c : ascii) : bool :=
  Nat.ltb (Ascii.nat_of_ascii c) 32.

Fixpoint skip_ws (s : string) (pos : nat) : string * nat :=
  match s with
  | String c s' => if is_ws c then skip_ws s' (S pos) else (s, pos)
  | EmptyString => (s, pos)
  end.

Definition unexpected {A : Type} (s : string) (pos : nat) : Scan A :=
  match s with
  | EmptyString => inl UnexpectedEnd
  | String c _ => inl (UnexpectedToken c pos)
  end.

(** [null], [true] and [false]: the text has to spell the word. *)
Fixpoint scan_literal (word s : string) (pos : nat) : Scan unit :=
  match word with
  | EmptyString => inr (tt, (s, pos))
  | String w word' =>
      match s with
      | String c s' =>
          if Ascii.eqb c w then scan_literal word' s' (S pos)
          else inl (UnexpectedToken c pos)
      | EmptyString => inl UnexpectedEnd
      end
  end.

Definition keep (c : ascii) (r : Scan string) : Scan string :=
  match r with
  | inr (text, rest) => inr (String c text, rest)
  | inl e => inl e
  end.

(** A string token after its opening quote, up to the closing one. *)
Inductive StringState : Type :=
  | Plain
  | Escaped
  | Hex (remaining : nat).

Fixpoint scan_string (state : StringState) (s : string) (pos : nat) : Scan string :=
  match s with
  | EmptyString => inl UnexpectedEnd
  | String c s' =>
      match state with
      | Plain =>
          if Ascii.eqb c dquote then inr (EmptyString, (s', S pos))
          else if Ascii.eqb c "\" then keep c (scan_string Escaped s' (S pos))
          else if is_control c then inl (UnexpectedToken c pos)
          else keep c (scan_string Plain s' (S pos))
      | Escaped =>
          if Ascii.eqb c dquote || existsb (Ascii.eqb c) (list_ascii_of_string "\/bfnrt")
          then keep c (scan_string Plain s' (S pos))
          else if Ascii.eqb c "u" then keep c (scan_string (Hex 3) s' (S pos))
          else inl (UnexpectedToken c pos)
      | Hex remaining =>
          if is_hex c
          then keep c (scan_string
                         (match remaining with O => Plain | S n => Hex n end)
                         s' (S pos))
          else inl (UnexpectedToken c pos)
      end
  end.

(** A number token: an optional minus sign, then 0 or a digit string with no
    leading 0, then an optional fraction (a dot and digits) and an optional
    exponent (e or E, an optional sign, digits). *)
Inductive NumberState : Type :=
  | NStart | NMinus | NZero | NInt | NDot | NFrac | NE | NESign | NExp.

Definition number_done (state : NumberState) : bool :=
  match state with
  | NZero | NInt | NFrac | NExp => true
  | _ => false
  end.

Definition number_step (state : NumberState) (c : ascii) : option NumberState :=
  let digit := is_digit c in
  let exponent := Ascii.eqb c "e" || Ascii.eqb c "E" in
  match state with
  | NStart =>
      if Ascii.eqb c "-" then Some NMinus
      else if Ascii.eqb c "0" then Some NZero
      else if digit then Some NInt else None
  | NMinus =>
      if Ascii.eqb c "0" then Some NZero else if digit then Some NInt else None
  | NZero =>
      if Ascii.eqb c "." then Some NDot else if exponent then Some NE else None
  | NInt =>
      if digit then Some NInt
      else if Ascii.eqb c "." then Some NDot
      else if exponent then Some NE else None
  | NDot => if digit then Some NFrac else None
  | NFrac => if digit then Some NFrac else if exponent then Some NE else None
  | NE =>
      if Ascii.eqb c "+" || Ascii.eqb c "-" then Some NESign
      else if digit then Some NExp else None
  | NESign => if digit then Some NExp else None
  | NExp => if digit then Some NExp else None
  end.

Fixpoint scan_number (state : NumberState) (s : string) (pos : nat) : Scan string :=
  match s with
  | EmptyString =>
      if number_done state then inr (EmptyString, (s, pos)) else inl UnexpectedEnd
  | String c s' =>
      match number_step state c with
      | Some state' => keep c (scan_number state' s' (S pos))
      | None =>
          if number_done state then inr (EmptyString, (s, pos))
          else inl (UnexpectedToken c pos)
      end
  end.

Fixpoint parse_value (fuel : nat) (s : string) (pos : nat) : Scan Json :=
  match fuel with
  | O => inl UnexpectedEnd
  | S fuel' =>
      let '(s0, p0) := skip_ws s pos in
      match s0 with
      | EmptyString => inl UnexpectedEnd
      | String c s1 =>
          if Ascii.eqb c "n" then
            match scan_literal "null" s0 p0 with
            | inr (_, rest) => inr (JsonNull, rest)
            | inl e => inl e
            end
          else if Ascii.eqb c "t" then
            match scan_literal "true" s0 p0 with
            | inr (_, rest) => inr (JsonBool true, rest)
            | inl e => inl e
            end
          else if Ascii.eqb c "f" then
            match scan_literal "false" s0 p0 with
            | inr (_, rest) => inr (JsonBool false, rest)
            | inl e => inl e
            end
          else if Ascii.eqb c dquote then
            match scan_string Plain s1 (S p0) with
            | inr (raw, rest) => inr (JsonString raw, rest)
            | inl e => inl e
            end
          else if Ascii.eqb c "-" || is_digit c then
            match scan_number NStart s0 p0 with
            | inr (literal, rest) => inr (JsonNumber literal, rest)
            | inl e => inl e
            end
          else if Ascii.eqb c "[" then
            let '(s2, p2) := skip_ws s1 (S p0) in
            match s2 with
            | String "]" s3 => inr (JsonArray [], (s3, S p2))
            | _ =>
                match parse_elements fuel' s2 p2 with
                | inr (items, rest) => inr (JsonArray items, rest)
                | inl e => inl e
                end
            end
          else if Ascii.eqb c "{" then
            let '(s2, p2) := skip_ws s1 (S p0) in
            match s2 with
            | String "}" s3 => inr (JsonObject [], (s3, S p2))
            | _ =>
                match parse_members fuel' s2 p2 with
                | inr (members, rest) => inr (JsonObject members, rest)
                | inl e => inl e
                end
            end
          else inl (UnexpectedToken c p0)
      end
  end

with parse_elements (fuel : nat) (s : string) (pos : nat) : Scan (list Json) :=
  match fuel with
  | O => inl UnexpectedEnd
  | S fuel' =>
      match parse_value fuel' s pos with
      | inl e => inl e
      | inr (item, (s1, p1)) =>
          let '(s2, p2) := skip_ws s1 p1 in
          match s2 with
          | String "," s3 =>
              match parse_elements fuel' s3 (S p2) with
              | inr (items, rest) => inr (item :: items, rest)
              | inl e => inl e
              end
          | String "]" s3 => inr ([item], (s3, S p2))
          | _ => unexpected s2 p2
          end
      end
  end

with parse_members (fuel : nat) (s : string) (pos : nat) : Scan (list (string * Json)) :=
  match fuel with
  | O => inl UnexpectedEnd
  | S fuel' =>
      let '(s0, p0) := skip_ws s pos in
      match s0 with
      | String c s1 =>
          if negb (Ascii.eqb c dquote) then inl (UnexpectedToken c p0) else
          match scan_string Plain s1 (S p0) with
          | inl e => inl e
          | inr (key, (s2, p2)) =>
              let '(s3, p3) := skip_ws s2 p2 in
              match s3 with
              | String ":" s4 =>
                  match parse_value fuel' s4 (S p3) with
                  | inl e => inl e
                  | inr (value, (s5, p5)) =>
                      let '(s6, p6) := skip_ws s5 p5 in
                      match s6 with
                      | String "," s7 =>
                          match parse_members fuel' s7 (S p6) with
                          | inr (members, rest) => inr ((key, value) :: members, rest)
                          | inl e => inl e
                          end
                      | String "}" s7 => inr ([(key, value)], (s7, S p6))
                      | _ => unexpected s6 p6
                      end
                  end
              | _ => unexpected s3 p3
              end
          end
      | EmptyString => inl UnexpectedEnd
      end
  end.

(** The whole text has to be one value between white space. *)
Definition parse (text : string) : SyntaxError + Json :=
  match parse_value (2 * String.length text + 2) text 0 with
  | inl e => inl e
  | inr (value, (s1, p1)) =>
      let '(s2, p2) := skip_ws s1 p1 in
      match s2 with
      | EmptyString => inr value
      | String c _ => inl (UnexpectedToken c p2)
      end
  end.

(** The message of the [SyntaxError], in the words of V8 (Node 18); the
    language leaves the text to the engine. *)
Definition SyntaxError_message (e : SyntaxError) : string :=
  match e with
  | UnexpectedEnd => "Unexpected end of JSON input"
  | UnexpectedToken c position =>
      let place := " in JSON at position " +:+ decimal_of_N (N.of_nat position) in
      if Ascii.eqb c dquote then "Unexpected string" +:+ place
      else if Ascii.eqb c "-" || is_digit c then "Unexpected number" +:+ place
      else "Unexpected token " +:+ String c EmptyString +:+ place
  end.

Definition JSON_parse (text : string) : string + Json :=
  match parse text with
  | inr value => inr value
  | inl e => inl (SyntaxError_message e)
  end.

Definition quoted (raw : string) : string :=
  String dquote raw +:+ String dquote EmptyString.

(** [JSON.stringify(value, null, 2)] at a given indentation: the document
    laid out again, two spaces a level.  The tokens are printed as they were
    written and the members in the order written, which is Node's output
    when numbers and strings were written in their shortest form and the
    keys of an object are distinct and none of them is an array index. *)
Fixpoint stringify (indent : string) (value : Json) : string :=
  let inner := indent +:+ "  " in
  match value with
  | JsonNull => "null"
  | JsonBool true => "true"
  | JsonBool false => "false"
  | JsonNumber literal => literal
  | JsonString raw => quoted raw
  | JsonArray [] => "[]"
  | JsonArray items =>
      "[" +:+ LF
      +:+ join ("," +:+ LF) (List.map (fun item => inner +:+ stringify inner item) items)
      +:+ LF +:+ indent +:+ "]"
  | JsonObject [] => "{}"
  | JsonObject members =>
      "{" +:+ LF
      +:+ join ("," +:+ LF)
           (List.map (fun member =>
                        inner +:+ quoted (fst member) +:+ ": " +:+ stringify inner (snd member))
                     members)
      +:+ LF +:+ indent +:+ "}"
  end.

Definition JSON_stringify (value : Json) : string := stringify EmptyString value.

(** The SDK: [super(`MCP error ${code}: ${message}`)]. *)
Definition ErrorCode_number (code : ErrorCode) : string :=
  match code with
  | MethodNotFound => "-32601"
  | InvalidParams => "-32602"
  end.

Definition McpError_message (code : ErrorCode) (message : string) : string :=
  "MCP error " +:+ ErrorCode_number code +:+ ": " +:+ message.

(** A machine with Docker, as far as the three setup commands and
    [docker run] go. *)
Record Machine : Type := {
  docker_available : bool;
  image_present : bool;
  registry_reachable : bool;
  dnstwist : string -> ExecOutcome
}.

Definition with_image (m : Machine) : Machine :=
  {| docker_available := docker_available m;
     image_present := true;
     registry_reachable := registry_reachable m;
     dnstwist := dnstwist m |}.

Definition command_failed (command stderr : string) : ExecOutcome :=
  Rejected (Error ("Command failed: " +:+ command +:+ LF +:+ stderr)).

(** [stripPrefix]: the rest of [s] after [prefix]. *)
Fixpoint after_prefix (prefix s : string) : option string :=
  match prefix with
  | EmptyString => Some s
  | String p prefix' =>
      match s with
      | String c s' => if Ascii.eqb c p then after_prefix prefix' s' else None
      | EmptyString => None
      end
  end.

(** [exec] rejects when a stream outgrows [maxBuffer]. *)
Definition bounded (maxBuffer : N) (outcome : ExecOutcome) : ExecOutcome :=
  match outcome with
  | Resolved stdout stderr =>
      if N.ltb maxBuffer (N.of_nat (String.length stdout))
      then Rejected (ErrorObject "RangeError" "stdout maxBuffer length exceeded")
      else if N.ltb maxBuffer (N.of_nat (String.length stderr))
      then Rejected (ErrorObject "RangeError" "stderr maxBuffer length exceeded")
      else outcome
  | Rejected _ => outcome
  end.

Definition execAsync (command : string) (maxBuffer : N) (m : Machine)
  : ExecOutcome * Machine :=
  if negb (docker_available m) then
    (command_failed command ("/bin/sh: 1: docker: not found" +:+ LF), m)
  else if String.eqb command "docker --version" then
    (Resolved ("Docker version 24.0.7, build afdd53b" +:+ LF) EmptyString, m)
  else if String.eqb command ("docker image inspect " +:+ DOCKER_IMAGE) then
    if image_present m
    then (Resolved ("[{" +:+ quoted "RepoTags" +:+ ":[" +:+ quoted "elceef/dnstwist:latest"
                    +:+ "]}]" +:+ LF) EmptyString, m)
    else (command_failed command
            ("Error response from daemon: No such image: elceef/dnstwist:latest" +:+ LF), m)
  else if String.eqb command ("docker pull " +:+ DOCKER_IMAGE) then
    if registry_reachable m
    then (Resolved ("Status: Downloaded newer image for elceef/dnstwist:latest" +:+ LF)
                   EmptyString, with_image m)
    else (command_failed command
            ("Error response from daemon: Get https://registry-1.docker.io/v2/: "
             +:+ "dial tcp: lookup registry-1.docker.io: no such host" +:+ LF), m)
  else
    match after_prefix ("docker run --rm " +:+ DOCKER_IMAGE +:+ " ") command with
    | Some argv =>
        if image_present m || registry_reachable m
        then (bounded maxBuffer (dnstwist m argv), with_image m)
        else (command_failed command
                ("Unable to find image 'elceef/dnstwist:latest' locally" +:+ LF), m)
    | None =>
        (command_failed command ("docker: unknown command" +:+ LF), m)
    end.

Definition runtime : Runtime Machine Json :=
  Build_Runtime Machine Json execAsync JSON_parse JSON_stringify McpError_message.

(** A machine ready to run the tool, which prints [stdout] whatever it is
    asked. *)
Definition ready (stdout : string) : Machine :=
  {| docker_available := true;
     image_present := true;
     registry_reachable := true;
     dnstwist := fun _ => Resolved stdout EmptyString |}.

Definition start (m : Machine) : State Machine :=
  {| world := m; issued := [] |}.

End Node.


(** ** Concrete requests *)

Module Samples.

Definition object (fields : list (string * JsValue)) : JsValue :=
  JObject (list_to_map fields).

(** [{ domain: "example.com" }] *)
Definition only_domain : JsValue :=
  object [("domain", JString "example.com")].

(** [{ domain: "example.com", threads: 500 }] *)
Definition threads_500 : JsValue :=
  object [("domain", JString "example.com"); ("threads", JNumber (NumInt 500))].

(** [{ domain: "example.com", threads: "50" }] *)
Definition threads_text : JsValue :=
  object [("domain", JString "example.com"); ("threads", JString "50")].

(** [{ domain: "example.com", threads: 0 }] *)
Definition threads_0 : JsValue :=
  object [("domain", JString "example.com"); ("threads", JNumber (NumInt 0))].

(** [{ domain: '' }], the empty string *)
Definition empty_domain : JsValue :=
  object [("domain", JString EmptyString)].

(** [{ nameservers: "8.8.8.8" }] *)
Definition no_domain : JsValue :=
  object [("nameservers", JString "8.8.8.8")].

(** [{ domain: "example.com", format: "csv" }] *)
Definition csv_format : JsValue :=
  object [("domain", JString "example.com"); ("format", JString "csv")].

(** [{ domain: "example.com", registered_only: false, mxcheck: false,
       ssdeep: false, banners: false }] *)
Definition flags_off : JsValue :=
  object [("domain", JString "example.com");
          ("registered_only", JBoolean false); ("mxcheck", JBoolean false);
          ("ssdeep", JBoolean false); ("banners", JBoolean false)].

(** [{ domain: "example.com evil.org" }] *)
Definition two_words : JsValue :=
  object [("domain", JString "example.com evil.org")].

(** [{ domain: "example.com", nameservers: "1.1.1.1 -t 50", threads: 0 }] *)
Definition smuggled_threads : JsValue :=
  object [("domain", JString "example.com");
          ("nameservers", JString "1.1.1.1 -t 50");
          ("threads", JNumber (NumInt 0))].

Definition call (arguments : JsValue) : CallToolRequest :=
  {| params_name := "fuzz_domain"; params_arguments := arguments |}.

(** The first lines of what dnstwist prints with [--format csv]. *)
Definition csv_stdout : string :=
  "fuzzer,domain,dns_a,dns_aaaa,dns_mx,dns_ns" +:+ Node.LF
  +:+ "*original,example.com,93.184.216.34,,," +:+ Node.LF.

End Samples.

(** ** The tool list (handler for [ListToolsRequestSchema], lines 119-174) *)

Module Tools.

(** An object literal. *)
Definition literal (fields : list (string * JsValue)) : JsValue :=
  JObject (list_to_map fields).

(** [inputSchema.properties], in the order written. *)
Definition properties : list (string * JsValue) :=
  [("domain",
    literal [("type", JString "string");
             ("description", JString "Domain name to analyze (e.g., example.com)")]);
   ("nameservers",
    literal [("type", JString "string");
             ("description",
              JString "Comma-separated list of DNS servers to use (default: 1.1.1.1)");
             ("default", JString "1.1.1.1")]);
   ("threads",
    literal [("type", JString "number");
             ("description", JString "Number of threads to use for parallel processing");
             ("minimum", JNumber (NumInt 1));
             ("maximum", JNumber (NumInt 100));
             ("default", JNumber (NumInt 50))]);
   ("format",
    literal [("type", JString "string");
             ("enum", JArray [JString "json"; JString "csv"; JString "list"]);
             ("description", JString "Output format");
             ("default", JString "json")]);
   ("registered_only",
    literal [("type", JString "boolean");
             ("description", JString "Show only registered domain permutations");
             ("default", JBoolean true)]);
   ("mxcheck",
    literal [("type", JString "boolean");
             ("description", JString "Check for MX records");
             ("default", JBoolean true)]);
   ("ssdeep",
    literal [("type", JString "boolean");
             ("description",
              JString "Generate fuzzy hashes of web pages to detect phishing");
             ("default", JBoolean false)]);
   ("banners",
    literal [("type", JString "boolean");
             ("description", JString "Capture HTTP banner information");
             ("default", JBoolean true)])].

Definition inputSchema : JsValue :=
  literal [("type", JString "object");
           ("properties", literal properties);
           ("required", JArray [JString "domain"])].

Definition fuzz_domain : JsValue :=
  literal [("name", JString "fuzz_domain");
           ("description",
            JString "Generate and analyze domain permutations to detect potential typosquatting, phishing, and brand impersonation");
           ("inputSchema", inputSchema)].

Definition tools_list : JsValue :=
  literal [("tools", JArray [fuzz_domain])].

(** [async () => ({ tools: [ ... ] })] *)
Definition listTools {World : Type} : Async World JsValue :=
  ret tools_list.

(** What a client reads in the list: the names of the tools, and for a
    property of the input its schema, its type and its default. *)
Definition items (v : JsValue) : list JsValue :=
  match v with JArray xs => xs | _ => [] end.

Definition advertised_names (result : JsValue) : list JsValue :=
  List.map (fun tool => get tool "name") (items (get result "tools")).

Definition property (key : string) : JsValue :=
  get (get inputSchema "properties") key.

Definition default_of (key : string) : JsValue :=
  get (property key) "default".

End Tools.

(** ** More concrete requests and machines *)

Module Cases.

(** [["example.com"]], an array where the object should be. *)
Definition array_payload : JsValue := JArray [JString "example.com"].

Definition domain_only : gmap string JsValue :=
  list_to_map [("domain", JString "example.com")].

(** [{ domain: "example.com", nameservers: '' }], the empty string. *)
Definition empty_nameservers : JsValue :=
  Tools.literal [("domain", JString "example.com"); ("nameservers", JString EmptyString)].

(** No Docker on the machine. *)
Definition no_docker : Node.Machine :=
  {| Node.docker_available := false;
     Node.image_present := false;
     Node.registry_reachable := true;
     Node.dnstwist := fun _ => Resolved "[]" EmptyString |}.

(** Docker without the image, the registry within reach. *)
Definition no_image : Node.Machine :=
  {| Node.docker_available := true;
     Node.image_present := false;
     Node.registry_reachable := true;
     Node.dnstwist := fun _ => Resolved "[]" EmptyString |}.

(** Docker without the image and without the registry. *)
Definition offline : Node.Machine :=
  {| Node.docker_available := true;
     Node.image_present := false;
     Node.registry_reachable := false;
     Node.dnstwist := fun _ => Resolved "[]" EmptyString |}.

End Cases.

(** The text [typeof] yields. *)
Definition TypeTag_text (t : TypeTag) : string :=
  match t with
  | TUndefined => "undefined"
  | TObject => "object"
  | TBoolean => "boolean"
  | TNumber => "number"
  | TString => "string"
  end.

(** The names the guard and the destructuring read in the payload. *)
Definition argument_names : list string :=
  ["domain"; "nameservers"; "threads"; "format";
   "registered_only"; "mxcheck"; "ssdeep"; "banners"].



(** The commands a call has added to the log. *)
Definition added {World : Type} (before after_ : State World) (commands : list string)
  : Prop :=
  issued after_ = issued before ++ commands.

(** * Properties *)

(** ** The type guard *)

Lemma typeof_string (v : JsValue) :
  TypeTag_eqb (typeof v) TString = true -> exists s, v = JString s.
Proof. destruct v; simpl; try discriminate. eauto. Qed.

Lemma typeof_number (v : JsValue) :
  TypeTag_eqb (typeof v) TNumber = true -> exists n, v = JNumber n.
Proof. destruct v; simpl; try discriminate. eauto. Qed.

Lemma typeof_boolean (v : JsValue) :
  TypeTag_eqb (typeof v) TBoolean = true -> exists b, v = JBoolean b.
Proof. destruct v; simpl; try discriminate. eauto. Qed.

Lemma includes_formats (v : JsValue) :
  includes ["json"; "csv"; "list"] v = true ->
  exists f, v = JString (Format_text f) /\ read_format v = Some f.
Proof.
  destruct v as [| | | |s| |]; simpl; try discriminate.
  destruct (String.eqb_spec s "json") as [->|_]; [exists Fjson; auto|].
  destruct (String.eqb_spec s "csv") as [->|_]; [exists Fcsv; auto|].
  destruct (String.eqb_spec s "list") as [->|_]; [exists Flist; auto|].
  discriminate.
Qed.

(** An optional field that passed its test is undefined or of its type. *)
Lemma optional_field {A : Type} (read : JsValue -> option A) (test : JsValue -> bool)
    (v : JsValue) :
  (test v = true -> exists x, read v = Some x /\ v <> JUndefined) ->
  is_undefined v || test v = true ->
  (v = JUndefined /\ optional read v = Some None) \/
  (exists x, read v = Some x /\ optional read v = Some (Some x)).
Proof.
  intros Htest H. apply orb_true_iff in H as [H|H].
  - left. destruct v; simpl in H; try discriminate. auto.
  - right. destruct (Htest H) as (x & Hx & Hne). exists x. split; [assumption|].
    unfold optional. rewrite Hx. destruct v; congruence.
Qed.

Lemma optional_string (v : JsValue) :
  is_undefined v || TypeTag_eqb (typeof v) TString = true ->
  (v = JUndefined /\ optional read_string v = Some None) \/
  (exists s, read_string v = Some s /\ optional read_string v = Some (Some s)).
Proof.
  apply (optional_field read_string (fun v => TypeTag_eqb (typeof v) TString)).
  intros H. destruct (typeof_string v H) as [s ->].
  exists s. split; [reflexivity | discriminate].
Qed.

Lemma optional_number (v : JsValue) :
  is_undefined v || TypeTag_eqb (typeof v) TNumber = true ->
  (v = JUndefined /\ optional read_number v = Some None) \/
  (exists n, read_number v = Some n /\ optional read_number v = Some (Some n)).
Proof.
  apply (optional_field read_number (fun v => TypeTag_eqb (typeof v) TNumber)).
  intros H. destruct (typeof_number v H) as [n ->].
  exists n. split; [reflexivity | discriminate].
Qed.

Lemma optional_boolean (v : JsValue) :
  is_undefined v || TypeTag_eqb (typeof v) TBoolean = true ->
  (v = JUndefined /\ optional read_boolean v = Some None) \/
  (exists b, read_boolean v = Some b /\ optional read_boolean v = Some (Some b)).
Proof.
  apply (optional_field read_boolean (fun v => TypeTag_eqb (typeof v) TBoolean)).
  intros H. destruct (typeof_boolean v H) as [b ->].
  exists b. split; [reflexivity | discriminate].
Qed.

Lemma optional_format (v : JsValue) :
  is_undefined v || includes ["json"; "csv"; "list"] v = true ->
  (v = JUndefined /\ optional read_format v = Some None) \/
  (exists f, read_format v = Some f /\ optional read_format v = Some (Some f)).
Proof.
  apply (optional_field read_format (includes ["json"; "csv"; "list"])).
  intros H. destruct (includes_formats v H) as (f & -> & Hf).
  exists f. split; [assumption | discriminate].
Qed.

(** The guard is sound: a payload it accepts reads as a [FuzzDomainArgs]. *)
Lemma isFuzzDomainArgs_sound (args : JsValue) :
  isFuzzDomainArgs args = true ->
  exists a, as_FuzzDomainArgs args = Some a /\
    get args "domain" = JString (domain a) /\
    narrowed read_string (get args "nameservers") (nameservers a) /\
    narrowed read_number (get args "threads") (threads a) /\
    narrowed read_format (get args "format") (format a) /\
    narrowed read_boolean (get args "registered_only") (registered_only a) /\
    narrowed read_boolean (get args "mxcheck") (mxcheck a) /\
    narrowed read_boolean (get args "ssdeep") (ssdeep a) /\
    narrowed read_boolean (get args "banners") (banners a).
Proof.
  unfold isFuzzDomainArgs, narrowed.
  destruct args as [| |b|n|s|items|fields];
    try (simpl; rewrite ?orb_true_r; discriminate).
  cbn [truthy typeof TypeTag_eqb negb orb].
  set (a := get (JObject fields)).
  intros H. repeat (apply andb_true_iff in H as [H ?]).
  unfold as_FuzzDomainArgs. fold a.
  destruct (typeof_string _ H) as [d Hd]. rewrite Hd. simpl.
  repeat match goal with
  | H : is_undefined _ || TypeTag_eqb _ TString = true |- _ =>
      apply optional_string in H
  | H : is_undefined _ || TypeTag_eqb _ TNumber = true |- _ =>
      apply optional_number in H
  | H : is_undefined _ || TypeTag_eqb _ TBoolean = true |- _ =>
      apply optional_boolean in H
  | H : is_undefined _ || includes _ _ = true |- _ =>
      apply optional_format in H
  end.
  repeat match goal with
  | H : (_ /\ optional _ _ = _) \/ (exists _, _ /\ optional _ _ = _) |- _ =>
      destruct H as [[? ->] | (? & ? & ->)]; simpl
  end;
  eexists; (split; [reflexivity|]); simpl; repeat split; eauto.
Qed.

Lemma optional_passes {A : Type} (read : JsValue -> option A) (test : JsValue -> bool)
    (v : JsValue) (field : option A) :
  (forall x, read v = Some x -> test v = true) ->
  optional read v = Some field -> is_undefined v || test v = true.
Proof.
  intros Htest H. unfold optional in H.
  destruct (read v) as [x|] eqn:Hx.
  - rewrite (Htest x eq_refl). apply orb_true_r.
  - destruct v; simpl in *; congruence.
Qed.

(** The guard is exact: it accepts every payload that reads as a
    [FuzzDomainArgs]. *)
Lemma isFuzzDomainArgs_complete (args : JsValue) (a : FuzzDomainArgs) :
  as_FuzzDomainArgs args = Some a -> isFuzzDomainArgs args = true.
Proof.
  unfold as_FuzzDomainArgs, isFuzzDomainArgs.
  destruct args as [| |b|n|s|items|fields]; try discriminate.
  cbn [truthy typeof TypeTag_eqb negb orb].
  set (g := get (JObject fields)). intros H.
  destruct (read_string (g "domain")) as [d|] eqn:Hd; [|discriminate].
  destruct (optional read_string (g "nameservers")) as [ns|] eqn:Hns; [|discriminate].
  destruct (optional read_number (g "threads")) as [t|] eqn:Ht; [|discriminate].
  destruct (optional read_format (g "format")) as [f|] eqn:Hf; [|discriminate].
  destruct (optional read_boolean (g "registered_only")) as [ro|] eqn:Hro; [|discriminate].
  destruct (optional read_boolean (g "mxcheck")) as [mx|] eqn:Hmx; [|discriminate].
  destruct (optional read_boolean (g "ssdeep")) as [ss|] eqn:Hss; [|discriminate].
  destruct (optional read_boolean (g "banners")) as [bn|] eqn:Hbn; [|discriminate].
  clear H.
  apply (optional_passes _ (fun v => TypeTag_eqb (typeof v) TString)) in Hns;
    [|intros x Hx; destruct (g "nameservers"); try discriminate; reflexivity].
  apply (optional_passes _ (fun v => TypeTag_eqb (typeof v) TNumber)) in Ht;
    [|intros x Hx; destruct (g "threads"); try discriminate; reflexivity].
  apply (optional_passes _ (includes ["json"; "csv"; "list"])) in Hf.
  2:{ intros x Hx. destruct (g "format") as [| | | |text| |]; try discriminate.
      simpl in Hx |- *.
      destruct (String.eqb text "json"); [reflexivity|].
      destruct (String.eqb text "csv"); [reflexivity|].
      destruct (String.eqb text "list"); [reflexivity|discriminate]. }
  apply (optional_passes _ (fun v => TypeTag_eqb (typeof v) TBoolean)) in Hro;
    [|intros x Hx; destruct (g "registered_only"); try discriminate; reflexivity].
  apply (optional_passes _ (fun v => TypeTag_eqb (typeof v) TBoolean)) in Hmx;
    [|intros x Hx; destruct (g "mxcheck"); try discriminate; reflexivity].
  apply (optional_passes _ (fun v => TypeTag_eqb (typeof v) TBoolean)) in Hss;
    [|intros x Hx; destruct (g "ssdeep"); try discriminate; reflexivity].
  apply (optional_passes _ (fun v => TypeTag_eqb (typeof v) TBoolean)) in Hbn;
    [|intros x Hx; destruct (g "banners"); try discriminate; reflexivity].
  cbv beta in *. rewrite Hns, Ht, Hf, Hro, Hmx, Hss, Hbn.
  destruct (g "domain"); try discriminate. reflexivity.
Qed.

Lemma read_string_inv (v : JsValue) (s : string) :
  read_string v = Some s -> v = JString s.
Proof. destruct v; simpl; congruence. Qed.

Lemma read_number_inv (v : JsValue) (n : JsNumber) :
  read_number v = Some n -> v = JNumber n.
Proof. destruct v; simpl; congruence. Qed.

Lemma read_boolean_inv (v : JsValue) (b : bool) :
  read_boolean v = Some b -> v = JBoolean b.
Proof. destruct v; simpl; congruence. Qed.

Lemma read_format_inv (v : JsValue) (f : Format) :
  read_format v = Some f -> v = JString (Format_text f).
Proof.
  destruct v as [| | | |s| |]; simpl; try discriminate.
  destruct (String.eqb_spec s "json") as [->|_]; [intros [= <-]; reflexivity|].
  destruct (String.eqb_spec s "csv") as [->|_]; [intros [= <-]; reflexivity|].
  destruct (String.eqb_spec s "list") as [->|_]; [intros [= <-]; reflexivity|].
  discriminate.
Qed.

Lemma narrowed_bound {A : Type} (read : JsValue -> option A) (inject : A -> JsValue)
    (v : JsValue) (field : option A) (dflt : A) :
  (forall x, read v = Some x -> v = inject x) ->
  narrowed read v field -> bound inject v dflt (default dflt field).
Proof.
  intros Hinv [[-> ->] | (x & Hx & ->)]; [left; auto | right; simpl; auto].
Qed.

(** The text of integers: digit for digit below 2^53, the shortest digits
    of the nearest double from there on, an exponent past 21 digits. *)
Example Number_toString_integers :
  Number_toString (NumInt 50) = "50" /\
  Number_toString (NumInt (-7)) = "-7" /\
  Number_toString (NumInt (2 ^ 53 + 1)) = "9007199254740992" /\
  Number_toString (NumInt (2 ^ 64)) = "18446744073709552000" /\
  Number_toString (NumInt (10 ^ 21)) = "1e+21" /\
  Number_toString (NumInt (2 ^ 70)) = "1.1805916207174113e+21" /\
  Number_toString (NumInt (2 ^ 1024)) = "Infinity".
Proof. repeat split; vm_compute; reflexivity. Qed.

(** ** The argument list *)

Lemma build_args_unfold (r : AnalysisRequest) :
  build_args r =
    [req_domain r; "--format"; Format_text (req_format r)]
    ++ flag (req_registered_only r) "--registered"
    ++ (if string_truthy (req_nameservers r)
        then ["--nameservers"; req_nameservers r] else [])
    ++ (if number_truthy (req_threads r)
        then ["-t"; Number_toString (req_threads r)] else [])
    ++ flag (req_mxcheck r) "--mxcheck"
    ++ flag (req_ssdeep r) "--ssdeep"
    ++ flag (req_banners r) "-b".
Proof.
  unfold build_args, push, flag.
  destruct (req_registered_only r), (string_truthy (req_nameservers r)),
    (number_truthy (req_threads r)), (req_mxcheck r), (req_ssdeep r),
    (req_banners r); reflexivity.
Qed.

Lemma followed_by_In (x y : string) (l : list string) :
  followed_by x y l -> In x l.
Proof. intros (before & after & ->). apply in_or_app. right. left. reflexivity. Qed.

Lemma followed_by_app (x y : string) (l1 l2 l3 : list string) :
  followed_by x y l2 -> followed_by x y (l1 ++ l2 ++ l3).
Proof.
  intros (before & after & ->). exists (l1 ++ before), (after ++ l3).
  rewrite <- !app_assoc. reflexivity.
Qed.

(** C3: the request [{ domain: "example.com" }] passes the guard, and with
    the defaults applied its argument list is exactly example.com, --format,
    json, --registered, --nameservers, 1.1.1.1, -t, 50, --mxcheck, -b. *)
Theorem default_request_args :
  isFuzzDomainArgs Samples.only_domain = true /\
  as_FuzzDomainArgs Samples.only_domain
    = Some {| domain := "example.com"; nameservers := None; threads := None;
              format := None; registered_only := None; mxcheck := None;
              ssdeep := None; banners := None |} /\
  (fun a => build_args (destructure a)) <$> as_FuzzDomainArgs Samples.only_domain
    = Some ["example.com"; "--format"; "json"; "--registered";
            "--nameservers"; "1.1.1.1"; "-t"; "50"; "--mxcheck"; "-b"].
Proof. repeat split; vm_compute; reflexivity. Qed.

(** C2: for every payload the guard accepts, the argument list starts with
    the domain, --format and the format; a boolean field that is false
    contributes no token; and every token is one the mapping table lists. *)
Theorem build_args_follows_table (args : JsValue) :
  isFuzzDomainArgs args = true ->
  exists a, as_FuzzDomainArgs args = Some a /\
    let r := destructure a in
    exists nameservers_part threads_part,
      build_args r =
        [req_domain r; "--format"; Format_text (req_format r)]
        ++ flag (req_registered_only r) "--registered"
        ++ nameservers_part
        ++ threads_part
        ++ flag (req_mxcheck r) "--mxcheck"
        ++ flag (req_ssdeep r) "--ssdeep"
        ++ flag (req_banners r) "-b" /\
      (nameservers_part = [] \/
       nameservers_part = ["--nameservers"; req_nameservers r]) /\
      (threads_part = [] \/
       threads_part = ["-t"; Number_toString (req_threads r)]) /\
      (forall name, In (name, false) (boolean_rows r) ->
         In name (build_args r) ->
         name = req_domain r \/ name = req_nameservers r \/
         name = Number_toString (req_threads r)) /\
      Forall (fun token => In token (table_tokens r)) (build_args r).
Proof.
  intros Hvalid. destruct (isFuzzDomainArgs_sound args Hvalid) as (a & Ha & _).
  exists a. split; [assumption|]. intros r.
  eexists _, _. split; [apply build_args_unfold|].
  split; [destruct (string_truthy (req_nameservers r)); auto|].
  split; [destruct (number_truthy (req_threads r)); auto|].
  split.
  { intros name Hrow Hin. rewrite build_args_unfold in Hin.
    assert (Hformat : name <> "--format" /\ name <> Format_text (req_format r) /\
                      name <> "--nameservers" /\ name <> "-t").
    { unfold boolean_rows in Hrow. cbn [In] in Hrow.
      destruct (req_format r);
        repeat (destruct Hrow as [[= <- _]|Hrow]; [repeat split; discriminate|]);
        destruct Hrow. }
    destruct Hformat as (H1 & H2 & H3 & H4).
    unfold boolean_rows in Hrow. cbn [In] in Hrow.
    repeat (apply in_app_or in Hin as [Hin|Hin]).
    - cbn [In] in Hin. destruct Hin as [<-|[<-|[<-|[]]]]; tauto.
    - destruct (req_registered_only r); cbn [flag In] in Hin; [|tauto].
      destruct Hin as [<-|[]].
      repeat (destruct Hrow as [[=]|Hrow]). destruct Hrow.
    - destruct (string_truthy (req_nameservers r)); cbn [In] in Hin; [|tauto].
      destruct Hin as [<-|[<-|[]]]; tauto.
    - destruct (number_truthy (req_threads r)); cbn [In] in Hin; [|tauto].
      destruct Hin as [<-|[<-|[]]]; tauto.
    - destruct (req_mxcheck r); cbn [flag In] in Hin; [|tauto].
      destruct Hin as [<-|[]].
      repeat (destruct Hrow as [[=]|Hrow]). destruct Hrow.
    - destruct (req_ssdeep r); cbn [flag In] in Hin; [|tauto].
      destruct Hin as [<-|[]].
      repeat (destruct Hrow as [[=]|Hrow]). destruct Hrow.
    - destruct (req_banners r); cbn [flag In] in Hin; [|tauto].
      destruct Hin as [<-|[]].
      repeat (destruct Hrow as [[=]|Hrow]). destruct Hrow. }
  rewrite build_args_unfold. unfold flag, table_tokens.
  destruct (req_registered_only r), (string_truthy (req_nameservers r)),
    (number_truthy (req_threads r)), (req_mxcheck r), (req_ssdeep r),
    (req_banners r); cbn [app];
    repeat first [apply List.Forall_nil | apply List.Forall_cons; [simpl; tauto|]].
Qed.

Lemma build_args_follows_table_witness :
  exists a, as_FuzzDomainArgs Samples.flags_off = Some a /\
    build_args (destructure a)
      = ["example.com"; "--format"; "json"; "--nameservers"; "1.1.1.1"; "-t"; "50"].
Proof.
  destruct (build_args_follows_table Samples.flags_off) as (a & Ha & _).
  - vm_compute. reflexivity.
  - exists a. split; [exact Ha|].
    vm_compute in Ha. injection Ha as <-. vm_compute. reflexivity.
Defined.

(** A payload the guard accepts has every field of its declared type, and
    every binding of the destructuring assignment holds the field's value,
    or the default where the field is missing. *)
Lemma isFuzzDomainArgs_bindings (args : JsValue) :
  isFuzzDomainArgs args = true ->
  exists a, as_FuzzDomainArgs args = Some a /\
    let r := destructure a in
    get args "domain" = JString (req_domain r) /\
    bound JString (get args "nameservers") "1.1.1.1" (req_nameservers r) /\
    bound JNumber (get args "threads") (NumInt 50) (req_threads r) /\
    bound (fun f => JString (Format_text f)) (get args "format") Fjson (req_format r) /\
    bound JBoolean (get args "registered_only") true (req_registered_only r) /\
    bound JBoolean (get args "mxcheck") true (req_mxcheck r) /\
    bound JBoolean (get args "ssdeep") false (req_ssdeep r) /\
    bound JBoolean (get args "banners") true (req_banners r).
Proof.
  intros Hvalid.
  destruct (isFuzzDomainArgs_sound args Hvalid)
    as (a & Ha & Hd & Hns & Ht & Hf & Hro & Hmx & Hss & Hb).
  exists a. split; [assumption|]. cbn zeta. unfold destructure; cbn [req_domain
    req_nameservers req_threads req_format req_registered_only req_mxcheck
    req_ssdeep req_banners].
  split; [assumption|].
  split; [eapply narrowed_bound; [apply read_string_inv | eassumption]|].
  split; [eapply narrowed_bound; [apply read_number_inv | eassumption]|].
  split; [eapply narrowed_bound; [apply read_format_inv | eassumption]|].
  split; [eapply narrowed_bound; [apply read_boolean_inv | eassumption]|].
  split; [eapply narrowed_bound; [apply read_boolean_inv | eassumption]|].
  split; [eapply narrowed_bound; [apply read_boolean_inv | eassumption]|].
  eapply narrowed_bound; [apply read_boolean_inv | eassumption].
Qed.

(** The -t flag.  For every payload the guard accepts, when the threads
    field is missing the argument list has -t followed by 50; when the
    threads value is truthy (any number but 0 and NaN) it has -t followed by
    the value's text; when it is 0 or NaN the handler adds no -t, so that -t
    can only occur as the text of the domain or of the name servers. *)
Theorem threads_flag (args : JsValue) :
  isFuzzDomainArgs args = true ->
  exists a, as_FuzzDomainArgs args = Some a /\
    let r := destructure a in
    (get args "threads" = JUndefined -> followed_by "-t" "50" (build_args r)) /\
    (number_truthy (req_threads r) = true ->
     followed_by "-t" (Number_toString (req_threads r)) (build_args r)) /\
    (number_truthy (req_threads r) = false ->
     In "-t" (build_args r) ->
     req_domain r = "-t" \/ req_nameservers r = "-t").
Proof.
  intros Hvalid.
  destruct (isFuzzDomainArgs_bindings args Hvalid) as (a & Ha & Hfields).
  exists a. split; [assumption|]. intros r.
  destruct Hfields as (_ & _ & Ht & Hf & _). fold r in Ht, Hf.
  assert (Htruthy : number_truthy (req_threads r) = true ->
            followed_by "-t" (Number_toString (req_threads r)) (build_args r)).
  { intros Hon. rewrite build_args_unfold, Hon.
    rewrite (app_assoc (flag _ _)). rewrite app_assoc.
    apply followed_by_app. exists [], []. reflexivity. }
  split; [|split; [assumption|]].
  - intros Hmissing. destruct Ht as [[_ Ht] | Ht]; [|congruence].
    specialize (Htruthy ltac:(rewrite Ht; reflexivity)).
    rewrite Ht in Htruthy. exact Htruthy.
  - intros Hoff Hin. rewrite build_args_unfold, Hoff in Hin.
    repeat (apply in_app_or in Hin as [Hin|Hin]).
    + cbn [In] in Hin. destruct Hin as [<-|[Hin|[Hin|[]]]]; auto; try discriminate.
      destruct (req_format r); discriminate.
    + destruct (req_registered_only r); cbn [flag In] in Hin;
        [destruct Hin as [Hin|[]]; discriminate | destruct Hin].
    + destruct (string_truthy (req_nameservers r)); cbn [In] in Hin;
        [destruct Hin as [Hin|[<-|[]]]; [discriminate | auto] | destruct Hin].
    + destruct Hin.
    + destruct (req_mxcheck r); cbn [flag In] in Hin;
        [destruct Hin as [Hin|[]]; discriminate | destruct Hin].
    + destruct (req_ssdeep r); cbn [flag In] in Hin;
        [destruct Hin as [Hin|[]]; discriminate | destruct Hin].
    + destruct (req_banners r); cbn [flag In] in Hin;
        [destruct Hin as [Hin|[]]; discriminate | destruct Hin].
Qed.

Lemma threads_flag_witness :
  exists a, as_FuzzDomainArgs Samples.threads_500 = Some a /\
    followed_by "-t" "500" (build_args (destructure a)).
Proof.
  destruct (threads_flag Samples.threads_500) as (a & Ha & _ & Hon & _).
  - vm_compute. reflexivity.
  - exists a. split; [exact Ha|].
    vm_compute in Ha. injection Ha as <-. apply Hon. reflexivity.
Defined.

(** C8, on the code: [{ domain: "example.com", threads: 0 }], whose threads
    is below the minimum 1 of the schema, passes the guard all the same; 0
    is falsy, [if (threads)] skips the push, and the argument list has no -t
    at all, where the claim has -t followed by the stringified value for
    every request that passes validation. *)
Lemma threads_0_no_flag :
  isFuzzDomainArgs Samples.threads_0 = true /\
  exists a, as_FuzzDomainArgs Samples.threads_0 = Some a /\
    req_threads (destructure a) = NumInt 0 /\
    build_args (destructure a)
      = ["example.com"; "--format"; "json"; "--registered";
         "--nameservers"; "1.1.1.1"; "--mxcheck"; "-b"] /\
    ~ followed_by "-t" (Number_toString (req_threads (destructure a)))
        (build_args (destructure a)).
Proof.
  split; [vm_compute; reflexivity|].
  eexists. split; [vm_compute; reflexivity|].
  split; [reflexivity|]. split; [vm_compute; reflexivity|].
  intros H. apply followed_by_In in H. vm_compute in H.
  repeat (destruct H as [H|H]; [discriminate|]). destruct H.
Qed.

(** ** The handler *)

Section HandlerFacts.

Context {World Parsed : Type}.
Variable rt : Runtime World Parsed.

Lemma execCommand_resolved (command stdout stderr : string) (st : State World)
    (w : World) :
  execAsync rt command MAX_BUFFER (world st) = (Resolved stdout stderr, w) ->
  execCommand rt command st = (inr (stdout, stderr), after st w command).
Proof.
  intros H. unfold execCommand. unfold_commands. unfold_async.
  rewrite H. reflexivity.
Qed.

Lemma execCommand_rejected (command : string) (error : Thrown) (st : State World)
    (w : World) :
  execAsync rt command MAX_BUFFER (world st) = (Rejected error, w) ->
  execCommand rt command st = (inl error, after st w command).
Proof.
  intros H. unfold execCommand. unfold_commands. unfold_async.
  rewrite H. reflexivity.
Qed.

(** [execCommand] hands exactly its command to [execAsync], once. *)
Lemma execCommand_issued (command : string) (st : State World) :
  issued (snd (execCommand rt command st)) = issued st ++ [command].
Proof.
  destruct (execAsync rt command MAX_BUFFER (world st)) as [[stdout stderr|error] w] eqn:H.
  - rewrite (execCommand_resolved _ _ _ _ _ H). reflexivity.
  - rewrite (execCommand_rejected _ _ _ _ H). reflexivity.
Qed.

Lemma ensureSetup_no_docker (st : State World) (error : Thrown) (w : World) :
  execAsync rt docker_version MAX_BUFFER (world st) = (Rejected error, w) ->
  ensureSetup rt st =
    (inl (Error "Docker is not installed or not running. Please install Docker and try again."),
     after st w docker_version).
Proof.
  intros H. pose proof (execCommand_rejected _ _ _ _ H) as E.
  unfold_commands. unfold ensureSetup.
  unfold try_catch at 1 2. unfold bind at 1 2.
  rewrite E. reflexivity.
Qed.

Lemma ensureSetup_image_found (st : State World) (out1 err1 out2 err2 : string)
    (w1 w2 : World) :
  execAsync rt docker_version MAX_BUFFER (world st) = (Resolved out1 err1, w1) ->
  execAsync rt docker_image_inspect MAX_BUFFER w1 = (Resolved out2 err2, w2) ->
  ensureSetup rt st =
    (inr tt, after (after st w1 docker_version) w2 docker_image_inspect).
Proof.
  intros H1 H2.
  pose proof (execCommand_resolved _ _ _ _ _ H1) as E1.
  pose proof (execCommand_resolved _ _ _ (after st w1 docker_version) _ H2) as E2.
  unfold_commands. unfold ensureSetup.
  unfold try_catch at 1 2. unfold bind at 1 2.
  rewrite E1. unfold ret at 1. unfold try_catch, bind.
  rewrite E2. reflexivity.
Qed.

Lemma ensureSetup_image_pulled (st : State World) (out1 err1 out3 err3 : string)
    (error : Thrown) (w1 w2 w3 : World) :
  execAsync rt docker_version MAX_BUFFER (world st) = (Resolved out1 err1, w1) ->
  execAsync rt docker_image_inspect MAX_BUFFER w1 = (Rejected error, w2) ->
  execAsync rt docker_pull MAX_BUFFER w2 = (Resolved out3 err3, w3) ->
  ensureSetup rt st =
    (inr tt, after (after (after st w1 docker_version) w2 docker_image_inspect)
               w3 docker_pull).
Proof.
  intros H1 H2 H3.
  pose proof (execCommand_resolved _ _ _ _ _ H1) as E1.
  pose proof (execCommand_rejected _ _ (after st w1 docker_version) _ H2) as E2.
  pose proof (execCommand_resolved _ _ _
                (after (after st w1 docker_version) w2 docker_image_inspect) _ H3) as E3.
  unfold_commands. unfold ensureSetup.
  unfold try_catch at 1 2. unfold bind at 1 2.
  rewrite E1. unfold ret at 1. unfold try_catch, bind.
  rewrite E2, E3. reflexivity.
Qed.

Lemma ensureSetup_pull_failed (st : State World) (out1 err1 : string)
    (error error' : Thrown) (w1 w2 w3 : World) :
  execAsync rt docker_version MAX_BUFFER (world st) = (Resolved out1 err1, w1) ->
  execAsync rt docker_image_inspect MAX_BUFFER w1 = (Rejected error, w2) ->
  execAsync rt docker_pull MAX_BUFFER w2 = (Rejected error', w3) ->
  ensureSetup rt st =
    (inl error', after (after (after st w1 docker_version) w2 docker_image_inspect)
                   w3 docker_pull).
Proof.
  intros H1 H2 H3.
  pose proof (execCommand_resolved _ _ _ _ _ H1) as E1.
  pose proof (execCommand_rejected _ _ (after st w1 docker_version) _ H2) as E2.
  pose proof (execCommand_rejected _ _
                (after (after st w1 docker_version) w2 docker_image_inspect) _ H3) as E3.
  unfold_commands. unfold ensureSetup.
  unfold try_catch at 1 2. unfold bind at 1 2.
  rewrite E1. unfold ret at 1. unfold try_catch, bind.
  rewrite E2, E3. reflexivity.
Qed.

(** Whatever happens, [ensureSetup] runs setup commands only. *)
Lemma ensureSetup_issued (st : State World) :
  exists commands,
    issued (snd (ensureSetup rt st)) = issued st ++ commands /\
    incl commands setup_commands.
Proof.
  destruct (execAsync rt docker_version MAX_BUFFER (world st))
    as [[out1 err1|e1] w1] eqn:H1.
  2:{ rewrite (ensureSetup_no_docker _ _ _ H1). exists [docker_version].
      split; [reflexivity|]. intros c [<-|[]]. left. reflexivity. }
  destruct (execAsync rt docker_image_inspect MAX_BUFFER w1)
    as [[out2 err2|e2] w2] eqn:H2.
  { rewrite (ensureSetup_image_found _ _ _ _ _ _ _ H1 H2).
    exists [docker_version; docker_image_inspect]. cbn [snd after issued].
    rewrite <- app_assoc. split; [reflexivity|].
    intros c [<-|[<-|[]]]; [left | right; left]; reflexivity. }
  destruct (execAsync rt docker_pull MAX_BUFFER w2) as [[out3 err3|e3] w3] eqn:H3.
  - rewrite (ensureSetup_image_pulled _ _ _ _ _ _ _ _ _ H1 H2 H3).
    exists [docker_version; docker_image_inspect; docker_pull]. cbn [snd after issued].
    rewrite <- !app_assoc. split; [reflexivity|]. apply incl_refl.
  - rewrite (ensureSetup_pull_failed _ _ _ _ _ _ _ _ H1 H2 H3).
    exists [docker_version; docker_image_inspect; docker_pull]. cbn [snd after issued].
    rewrite <- !app_assoc. split; [reflexivity|]. apply incl_refl.
Qed.

End HandlerFacts.

Section CallTool.

Context {World Parsed : Type}.
Variable rt : Runtime World Parsed.

(** The handler's [catch] turns whatever its [try] block throws into a
    result, and passes a result on. *)
Lemma callTool_catches (request : CallToolRequest) (st st' : State World)
    (error : Thrown) :
  callTool_try rt request st = (inl error, st') ->
  callTool rt request st = (inr (error_result error), st').
Proof. intros H. unfold callTool, try_catch. rewrite H. reflexivity. Qed.

Lemma callTool_returns (request : CallToolRequest) (st st' : State World)
    (result : CallToolResult) :
  callTool_try rt request st = (inr result, st') ->
  callTool rt request st = (inr result, st').
Proof. intros H. unfold callTool, try_catch. rewrite H. reflexivity. Qed.

(** The stages of the [try] block, one lemma for each way out. *)
Lemma try_setup_failed (request : CallToolRequest) (st st1 : State World)
    (error : Thrown) :
  ensureSetup rt st = (inl error, st1) ->
  callTool_try rt request st = (inl error, st1).
Proof. intros H. unfold callTool_try, bind. rewrite H. reflexivity. Qed.

Lemma try_unknown_tool (request : CallToolRequest) (st st1 : State World) :
  ensureSetup rt st = (inr tt, st1) ->
  params_name request <> "fuzz_domain" ->
  callTool_try rt request st =
    (inl (McpError rt MethodNotFound ("Unknown tool: " +:+ params_name request)), st1).
Proof.
  intros H Hname. unfold callTool_try, bind. rewrite H.
  apply String.eqb_neq in Hname. rewrite Hname. reflexivity.
Qed.

Lemma try_invalid_arguments (request : CallToolRequest) (st st1 : State World) :
  ensureSetup rt st = (inr tt, st1) ->
  params_name request = "fuzz_domain" ->
  isFuzzDomainArgs (params_arguments request) = false ->
  callTool_try rt request st =
    (inl (McpError rt InvalidParams "Invalid arguments for fuzz_domain"), st1).
Proof.
  intros H Hname Hinvalid. unfold callTool_try, bind. rewrite H.
  apply String.eqb_eq in Hname. rewrite Hname, Hinvalid. reflexivity.
Qed.

(** After a successful setup, a valid request goes on to [docker run] and
    then to [translate]. *)
Lemma try_valid (request : CallToolRequest) (st st1 : State World)
    (a : FuzzDomainArgs) :
  ensureSetup rt st = (inr tt, st1) ->
  params_name request = "fuzz_domain" ->
  isFuzzDomainArgs (params_arguments request) = true ->
  as_FuzzDomainArgs (params_arguments request) = Some a ->
  callTool_try rt request st =
    bind (execCommand rt (docker_run_command (build_args (destructure a))))
         (fun out => translate rt (fst out)) st1.
Proof.
  intros H Hname Hvalid Ha. unfold callTool_try. unfold bind at 1 2. rewrite H.
  apply String.eqb_eq in Hname. rewrite Hname, Hvalid, Ha. reflexivity.
Qed.

Lemma try_run_failed (request : CallToolRequest) (st st1 : State World)
    (a : FuzzDomainArgs) (error : Thrown) (w : World) :
  ensureSetup rt st = (inr tt, st1) ->
  params_name request = "fuzz_domain" ->
  isFuzzDomainArgs (params_arguments request) = true ->
  as_FuzzDomainArgs (params_arguments request) = Some a ->
  execAsync rt (docker_run_command (build_args (destructure a))) MAX_BUFFER (world st1)
    = (Rejected error, w) ->
  callTool_try rt request st =
    (inl error, after st1 w (docker_run_command (build_args (destructure a)))).
Proof.
  intros H Hname Hvalid Ha Hrun.
  rewrite (try_valid _ _ _ _ H Hname Hvalid Ha). unfold bind.
  rewrite (execCommand_rejected _ _ _ _ _ Hrun). reflexivity.
Qed.

Lemma translate_failed (stdout message : string) (st : State World) :
  JSON_parse rt stdout = inl message ->
  translate rt stdout st =
    (inl (Error ("Failed to parse dnstwist output: "
                 +:+ String_of (ErrorObject "SyntaxError" message))), st).
Proof.
  intros H. unfold translate, JSON_parse_call. unfold_async. rewrite H. reflexivity.
Qed.

Lemma translate_parsed (stdout : string) (results : Parsed) (st : State World) :
  JSON_parse rt stdout = inr results ->
  translate rt stdout st =
    (inr {| content := [ {| type := "text"; text := JSON_stringify rt results |} ];
            isError := None |}, st).
Proof.
  intros H. unfold translate, JSON_parse_call. unfold_async. rewrite H. reflexivity.
Qed.

Lemma try_parse_failed (request : CallToolRequest) (st st1 : State World)
    (a : FuzzDomainArgs) (stdout stderr message : string) (w : World) :
  ensureSetup rt st = (inr tt, st1) ->
  params_name request = "fuzz_domain" ->
  isFuzzDomainArgs (params_arguments request) = true ->
  as_FuzzDomainArgs (params_arguments request) = Some a ->
  execAsync rt (docker_run_command (build_args (destructure a))) MAX_BUFFER (world st1)
    = (Resolved stdout stderr, w) ->
  JSON_parse rt stdout = inl message ->
  callTool_try rt request st =
    (inl (Error ("Failed to parse dnstwist output: "
                 +:+ String_of (ErrorObject "SyntaxError" message))),
     after st1 w (docker_run_command (build_args (destructure a)))).
Proof.
  intros H Hname Hvalid Ha Hrun Hparse.
  rewrite (try_valid _ _ _ _ H Hname Hvalid Ha). unfold bind.
  rewrite (execCommand_resolved _ _ _ _ _ _ Hrun). cbn [fst].
  apply translate_failed. assumption.
Qed.

Lemma try_parsed (request : CallToolRequest) (st st1 : State World)
    (a : FuzzDomainArgs) (stdout stderr : string) (results : Parsed) (w : World) :
  ensureSetup rt st = (inr tt, st1) ->
  params_name request = "fuzz_domain" ->
  isFuzzDomainArgs (params_arguments request) = true ->
  as_FuzzDomainArgs (params_arguments request) = Some a ->
  execAsync rt (docker_run_command (build_args (destructure a))) MAX_BUFFER (world st1)
    = (Resolved stdout stderr, w) ->
  JSON_parse rt stdout = inr results ->
  callTool_try rt request st =
    (inr {| content := [ {| type := "text"; text := JSON_stringify rt results |} ];
            isError := None |},
     after st1 w (docker_run_command (build_args (destructure a)))).
Proof.
  intros H Hname Hvalid Ha Hrun Hparse.
  rewrite (try_valid _ _ _ _ H Hname Hvalid Ha). unfold bind.
  rewrite (execCommand_resolved _ _ _ _ _ _ Hrun). cbn [fst].
  apply translate_parsed. assumption.
Qed.

End CallTool.

Lemma docker_run_not_setup (args : list string) :
  ~ In (docker_run_command args) setup_commands.
Proof.
  unfold docker_run_command, setup_commands, DOCKER_IMAGE. cbn [String.append In].
  intros [H|[H|[H|[]]]]; discriminate H.
Qed.

Section Claims.

Context {World Parsed : Type}.
Variable rt : Runtime World Parsed.

Lemma translate_state (stdout : string) (st : State World) :
  snd (translate rt stdout st) = st.
Proof.
  destruct (JSON_parse rt stdout) as [message|results] eqn:H.
  - rewrite (translate_failed _ _ _ _ H). reflexivity.
  - rewrite (translate_parsed _ _ _ _ H). reflexivity.
Qed.

Lemma callTool_state (request : CallToolRequest) (st : State World) :
  snd (callTool rt request st) = snd (callTool_try rt request st).
Proof.
  destruct (callTool_try rt request st) as [[error|result] st'] eqn:H.
  - rewrite (callTool_catches _ _ _ _ _ H). reflexivity.
  - rewrite (callTool_returns _ _ _ _ _ H). reflexivity.
Qed.

(** C6: the handler always returns a result and never throws.  Whatever
    its [try] block throws - in the setup, in the validation, in the run of
    the command or in the translation of its output - comes back as a result
    with one text item and with the error flag set; the text is Error
    executing dnstwist: followed by the message of the failure: the
    [message] of a thrown Error, and what [String] makes of any other thrown
    value.  For the stages: the message of the error the setup threw, the
    message of the McpError for invalid parameters, the message of the error
    [docker run] was rejected with, and Failed to parse dnstwist output:
    with the name and the message of the SyntaxError. *)
Theorem failures_are_results (request : CallToolRequest) (st : State World) :
  (exists result st', callTool rt request st = (inr result, st')) /\
  (forall name message st',
     callTool_try rt request st = (inl (ErrorObject name message), st') ->
     callTool rt request st =
       (inr {| content := [ {| type := "text";
                               text := "Error executing dnstwist: " +:+ message |} ];
               isError := Some true |}, st')) /\
  (forall shown st',
     callTool_try rt request st = (inl (NonError shown), st') ->
     callTool rt request st =
       (inr {| content := [ {| type := "text";
                               text := "Error executing dnstwist: " +:+ shown |} ];
               isError := Some true |}, st')) /\
  (forall error st1,
     ensureSetup rt st = (inl error, st1) ->
     callTool rt request st =
       (inr {| content :=
                 [ {| type := "text";
                      text := "Error executing dnstwist: "
                              +:+ match error with
                                  | ErrorObject _ message => message
                                  | NonError shown => shown
                                  end |} ];
               isError := Some true |}, st1)) /\
  (forall st1,
     ensureSetup rt st = (inr tt, st1) ->
     params_name request = "fuzz_domain" ->
     isFuzzDomainArgs (params_arguments request) = false ->
     callTool rt request st =
       (inr {| content :=
                 [ {| type := "text";
                      text := "Error executing dnstwist: "
                              +:+ McpError_message rt InvalidParams
                                    "Invalid arguments for fuzz_domain" |} ];
               isError := Some true |}, st1)) /\
  (forall st1 a error w,
     ensureSetup rt st = (inr tt, st1) ->
     params_name request = "fuzz_domain" ->
     isFuzzDomainArgs (params_arguments request) = true ->
     as_FuzzDomainArgs (params_arguments request) = Some a ->
     execAsync rt (docker_run_command (build_args (destructure a))) MAX_BUFFER (world st1)
       = (Rejected error, w) ->
     callTool rt request st =
       (inr {| content :=
                 [ {| type := "text";
                      text := "Error executing dnstwist: "
                              +:+ match error with
                                  | ErrorObject _ message => message
                                  | NonError shown => shown
                                  end |} ];
               isError := Some true |},
        after st1 w (docker_run_command (build_args (destructure a))))) /\
  (forall st1 a stdout stderr message w,
     ensureSetup rt st = (inr tt, st1) ->
     params_name request = "fuzz_domain" ->
     isFuzzDomainArgs (params_arguments request) = true ->
     as_FuzzDomainArgs (params_arguments request) = Some a ->
     execAsync rt (docker_run_command (build_args (destructure a))) MAX_BUFFER (world st1)
       = (Resolved stdout stderr, w) ->
     JSON_parse rt stdout = inl message ->
     callTool rt request st =
       (inr {| content :=
                 [ {| type := "text";
                      text := "Error executing dnstwist: "
                              +:+ "Failed to parse dnstwist output: "
                              +:+ match message with
                                  | EmptyString => "SyntaxError"
                                  | _ => "SyntaxError: " +:+ message
                                  end |} ];
               isError := Some true |},
        after st1 w (docker_run_command (build_args (destructure a))))).
Proof.
  split.
  { destruct (callTool_try rt request st) as [[error|result] st'] eqn:H.
    - eexists _, _. apply callTool_catches. eassumption.
    - eexists _, _. apply callTool_returns. eassumption. }
  split.
  { intros name message st' H. rewrite (callTool_catches _ _ _ _ _ H). reflexivity. }
  split.
  { intros shown st' H. rewrite (callTool_catches _ _ _ _ _ H). reflexivity. }
  split.
  { intros error st1 H.
    rewrite (callTool_catches _ _ _ _ _ (try_setup_failed rt request _ _ _ H)).
    destruct error; reflexivity. }
  split.
  { intros st1 H Hname Hinvalid.
    rewrite (callTool_catches _ _ _ _ _
               (try_invalid_arguments rt request _ _ H Hname Hinvalid)).
    reflexivity. }
  split.
  { intros st1 a error w H Hname Hvalid Ha Hrun.
    rewrite (callTool_catches _ _ _ _ _
               (try_run_failed rt request _ _ _ _ _ H Hname Hvalid Ha Hrun)).
    destruct error; reflexivity. }
  intros st1 a stdout stderr message w H Hname Hvalid Ha Hrun Hparse.
  rewrite (callTool_catches _ _ _ _ _
             (try_parse_failed rt request _ _ _ _ _ _ _ H Hname Hvalid Ha Hrun Hparse)).
  destruct message; reflexivity.
Qed.

(** A request the guard rejects ends in the [catch] block before any
    argument list is built: only setup commands have run. *)
Lemma invalid_arguments_run_setup_only (request : CallToolRequest) (st : State World) :
  isFuzzDomainArgs (params_arguments request) = false ->
  exists error st',
    callTool_try rt request st = (inl error, st') /\
    callTool rt request st = (inr (error_result error), st') /\
    (exists commands,
       issued st' = issued st ++ commands /\
       incl commands setup_commands /\
       forall args, ~ In (docker_run_command args) commands) /\
    (forall st1,
       ensureSetup rt st = (inr tt, st1) ->
       params_name request = "fuzz_domain" ->
       error = McpError rt InvalidParams "Invalid arguments for fuzz_domain" /\
       st' = st1).
Proof.
  intros Hinvalid.
  destruct (ensureSetup_issued rt st) as (commands & Hissued & Hincl).
  assert (Hrun : forall args, ~ In (docker_run_command args) commands).
  { intros args Hin. apply (docker_run_not_setup args), Hincl, Hin. }
  destruct (ensureSetup rt st) as [[error|[]] st1] eqn:Hsetup; cbn [snd] in Hissued.
  - exists error, st1.
    pose proof (try_setup_failed rt request _ _ _ Hsetup) as Htry.
    split; [assumption|]. split; [apply callTool_catches; assumption|].
    split; [eauto|]. intros st2 [=].
  - destruct (String.eqb_spec (params_name request) "fuzz_domain") as [Hname|Hname].
    + pose proof (try_invalid_arguments rt request _ _ Hsetup Hname Hinvalid) as Htry.
      eexists _, st1. split; [exact Htry|].
      split; [apply callTool_catches; assumption|]. split; [eauto|].
      intros st2 [= <-] _. auto.
    + pose proof (try_unknown_tool rt request _ _ Hsetup Hname) as Htry.
      eexists _, st1. split; [exact Htry|].
      split; [apply callTool_catches; assumption|]. split; [eauto|].
      intros st2 _ Hname'. contradiction.
Qed.

(** The types and the defaults.  A payload the guard accepts has every
    field of its declared type, and every binding of the destructuring
    assignment holds the field's value, or the documented default where the
    field is missing.  In particular a payload whose threads field is there
    and is not a number fails the guard; the handler answers with the error
    result and has run setup commands only. *)
Theorem validated_fields_typed (request : CallToolRequest) (st : State World) :
  let args := params_arguments request in
  (isFuzzDomainArgs args = true ->
   exists a, as_FuzzDomainArgs args = Some a /\
     let r := destructure a in
     get args "domain" = JString (req_domain r) /\
     bound JString (get args "nameservers") "1.1.1.1" (req_nameservers r) /\
     bound JNumber (get args "threads") (NumInt 50) (req_threads r) /\
     bound (fun f => JString (Format_text f)) (get args "format") Fjson (req_format r) /\
     bound JBoolean (get args "registered_only") true (req_registered_only r) /\
     bound JBoolean (get args "mxcheck") true (req_mxcheck r) /\
     bound JBoolean (get args "ssdeep") false (req_ssdeep r) /\
     bound JBoolean (get args "banners") true (req_banners r)) /\
  (get args "threads" <> JUndefined ->
   (forall n, get args "threads" <> JNumber n) ->
   isFuzzDomainArgs args = false /\
   exists error st',
     callTool rt request st = (inr (error_result error), st') /\
     exists commands,
       issued st' = issued st ++ commands /\
       incl commands setup_commands /\
       forall tokens, ~ In (docker_run_command tokens) commands).
Proof.
  intros args. split; [apply isFuzzDomainArgs_bindings|].
  intros Hthere Hnumber.
  assert (Hinvalid : isFuzzDomainArgs args = false).
  { destruct (isFuzzDomainArgs args) eqn:H; [|reflexivity].
    destruct (isFuzzDomainArgs_bindings _ H) as (a & _ & _ & _ & Ht & _).
    destruct Ht as [[Ht _] | Ht]; [contradiction | destruct (Hnumber _ Ht)]. }
  split; [assumption|].
  destruct (invalid_arguments_run_setup_only request st Hinvalid)
    as (error & st' & _ & Hcall & Hcommands & _).
  eauto.
Qed.

(** C5, as amended: the guard accepts a payload only when its domain is a
    string (any string, the empty one too).  For a payload whose domain is
    missing or not a string the guard fails, the handler returns the error
    result, and no command but those of the setup has run: no argument list
    reaches [docker run].  When the setup succeeded and the tool name is
    fuzz_domain, the failure is the McpError for invalid parameters. *)
Theorem domain_must_be_a_string (request : CallToolRequest) (st : State World) :
  (forall s, get (params_arguments request) "domain" <> JString s) ->
  isFuzzDomainArgs (params_arguments request) = false /\
  exists error st',
    callTool_try rt request st = (inl error, st') /\
    callTool rt request st = (inr (error_result error), st') /\
    (exists commands,
       issued st' = issued st ++ commands /\
       incl commands setup_commands /\
       forall args, ~ In (docker_run_command args) commands) /\
    (forall st1,
       ensureSetup rt st = (inr tt, st1) ->
       params_name request = "fuzz_domain" ->
       error = McpError rt InvalidParams "Invalid arguments for fuzz_domain" /\
       st' = st1).
Proof.
  intros Hdomain.
  assert (Hinvalid : isFuzzDomainArgs (params_arguments request) = false).
  { destruct (isFuzzDomainArgs (params_arguments request)) eqn:H; [|reflexivity].
    destruct (isFuzzDomainArgs_sound _ H) as (a & _ & Hd & _).
    destruct (Hdomain _ Hd). }
  split; [assumption|].
  apply invalid_arguments_run_setup_only. assumption.
Qed.

(** C7, as amended: when [JSON.parse] rejects the captured stdout, the
    translation throws an Error whose message is Failed to parse dnstwist
    output: followed by the text of the SyntaxError (its name and message),
    and no result, partial or not; the handler then answers with the error
    result made from that message.  The raw stdout is not added to it. *)
Theorem unparseable_stdout_is_an_error (stdout message : string) :
  JSON_parse rt stdout = inl message ->
  (forall st,
     translate rt stdout st =
       (inl (Error ("Failed to parse dnstwist output: "
                    +:+ String_of (ErrorObject "SyntaxError" message))), st)) /\
  (forall request st st1 a stderr w,
     ensureSetup rt st = (inr tt, st1) ->
     params_name request = "fuzz_domain" ->
     isFuzzDomainArgs (params_arguments request) = true ->
     as_FuzzDomainArgs (params_arguments request) = Some a ->
     execAsync rt (docker_run_command (build_args (destructure a))) MAX_BUFFER (world st1)
       = (Resolved stdout stderr, w) ->
     callTool rt request st =
       (inr {| content :=
                 [ {| type := "text";
                      text := "Error executing dnstwist: "
                              +:+ "Failed to parse dnstwist output: "
                              +:+ String_of (ErrorObject "SyntaxError" message) |} ];
               isError := Some true |},
        after st1 w (docker_run_command (build_args (destructure a))))).
Proof.
  intros Hparse. split.
  - intros st. apply translate_failed, Hparse.
  - intros request st st1 a stderr w H Hname Hvalid Ha Hrun.
    rewrite (callTool_catches rt _ _ _ _
               (try_parse_failed rt _ _ _ _ _ _ _ _ H Hname Hvalid Ha Hrun Hparse)).
    reflexivity.
Qed.

(** C1, on the code: the handler has one translation for every format.  A
    request for csv or list whose output [JSON.parse] rejects gets the error
    result for the parse failure, not the captured stdout. *)
Theorem csv_and_list_are_parsed (request : CallToolRequest) (st st1 : State World)
    (a : FuzzDomainArgs) (stdout stderr message : string) (w : World) :
  ensureSetup rt st = (inr tt, st1) ->
  params_name request = "fuzz_domain" ->
  isFuzzDomainArgs (params_arguments request) = true ->
  as_FuzzDomainArgs (params_arguments request) = Some a ->
  req_format (destructure a) = Fcsv \/ req_format (destructure a) = Flist ->
  execAsync rt (docker_run_command (build_args (destructure a))) MAX_BUFFER (world st1)
    = (Resolved stdout stderr, w) ->
  JSON_parse rt stdout = inl message ->
  callTool rt request st =
    (inr {| content :=
              [ {| type := "text";
                   text := "Error executing dnstwist: "
                           +:+ "Failed to parse dnstwist output: "
                           +:+ String_of (ErrorObject "SyntaxError" message) |} ];
            isError := Some true |},
     after st1 w (docker_run_command (build_args (destructure a)))).
Proof.
  intros H Hname Hvalid Ha _ Hrun Hparse.
  rewrite (callTool_catches rt _ _ _ _
             (try_parse_failed rt _ _ _ _ _ _ _ _ H Hname Hvalid Ha Hrun Hparse)).
  reflexivity.
Qed.

(** C9: when [docker --version] and [docker image inspect] both succeed -
    the image is there - [ensureSetup] returns after these two commands and
    runs no [docker pull].  This holds in every state, so also in the state
    a first call has left: the second of two calls in a row pulls nothing
    when it finds the image. *)
Theorem ensureSetup_no_pull_when_image_present (st : State World)
    (out1 err1 out2 err2 : string) (w1 w2 : World) :
  execAsync rt docker_version MAX_BUFFER (world st) = (Resolved out1 err1, w1) ->
  execAsync rt docker_image_inspect MAX_BUFFER w1 = (Resolved out2 err2, w2) ->
  ensureSetup rt st = (inr tt, after (after st w1 docker_version) w2 docker_image_inspect) /\
  exists commands,
    issued (snd (ensureSetup rt st)) = issued st ++ commands /\
    commands = ["docker --version"; "docker image inspect elceef/dnstwist"] /\
    ~ In "docker pull elceef/dnstwist" commands.
Proof.
  intros H1 H2. rewrite (ensureSetup_image_found rt _ _ _ _ _ _ _ H1 H2).
  split; [reflexivity|]. eexists. split; [|split; [reflexivity|]].
  - cbn [snd after issued]. rewrite <- app_assoc. reflexivity.
  - intros [H|[H|[]]]; discriminate H.
Qed.

End Claims.

(** ** Runs on the reference runtime *)

Lemma failures_are_results_witness :
  callTool Node.runtime (Samples.call Samples.no_domain) (Node.start (Node.ready "[]"))
    = (inr {| content :=
                [ {| type := "text";
                     text := "Error executing dnstwist: MCP error -32602: Invalid arguments for fuzz_domain" |} ];
              isError := Some true |},
       after (after (Node.start (Node.ready "[]")) (Node.ready "[]") "docker --version")
             (Node.ready "[]") "docker image inspect elceef/dnstwist").
Proof.
  apply (proj1 (proj2 (failures_are_results Node.runtime
                         (Samples.call Samples.no_domain)
                         (Node.start (Node.ready "[]"))))
           "McpError" "MCP error -32602: Invalid arguments for fuzz_domain").
  vm_compute. reflexivity.
Defined.

Lemma validated_fields_typed_witness :
  (exists a, as_FuzzDomainArgs Samples.csv_format = Some a /\
     req_format (destructure a) = Fcsv /\ req_threads (destructure a) = NumInt 50) /\
  isFuzzDomainArgs Samples.threads_text = false /\
  exists error st',
    callTool Node.runtime (Samples.call Samples.threads_text)
             (Node.start (Node.ready "[]")) = (inr (error_result error), st') /\
    exists commands,
      issued st' = [] ++ commands /\
      incl commands setup_commands /\
      forall tokens, ~ In (docker_run_command tokens) commands.
Proof.
  split.
  - destruct (proj1 (validated_fields_typed Node.runtime
                       (Samples.call Samples.csv_format)
                       (Node.start (Node.ready "[]"))))
      as (a & Ha & _).
    + vm_compute. reflexivity.
    + exists a. split; [exact Ha|].
      vm_compute in Ha. injection Ha as <-. split; reflexivity.
  - apply (proj2 (validated_fields_typed Node.runtime
                    (Samples.call Samples.threads_text)
                    (Node.start (Node.ready "[]")))).
    + vm_compute. discriminate.
    + intros n. vm_compute. discriminate.
Defined.

(** C4, on the code: [{ domain: "example.com", threads: 500 }] has an
    integer for threads that is outside the 1-100 the schema declares
    (minimum 1, maximum 100); the guard, which tests the type only, accepts
    it, and the handler builds the argument list and runs the tool with
    -t 500, where the claim has validation fail and no command built. *)
Lemma threads_500_accepted :
  get Samples.threads_500 "threads" = JNumber (NumInt 500) /\
  ~ (1 <= 500 <= 100)%Z /\
  isFuzzDomainArgs Samples.threads_500 = true /\
  (fun a => build_args (destructure a)) <$> as_FuzzDomainArgs Samples.threads_500
    = Some ["example.com"; "--format"; "json"; "--registered";
            "--nameservers"; "1.1.1.1"; "-t"; "500"; "--mxcheck"; "-b"] /\
  exists st',
    callTool Node.runtime (Samples.call Samples.threads_500)
             (Node.start (Node.ready "[]"))
      = (inr {| content := [ {| type := "text"; text := "[]" |} ]; isError := None |},
         st') /\
    issued st' =
      ["docker --version"; "docker image inspect elceef/dnstwist";
       "docker run --rm elceef/dnstwist example.com --format json --registered --nameservers 1.1.1.1 -t 500 --mxcheck -b"].
Proof.
  split; [vm_compute; reflexivity|]. split; [lia|].
  split; [vm_compute; reflexivity|]. split; [vm_compute; reflexivity|].
  eexists. split; vm_compute; reflexivity.
Qed.

Lemma domain_must_be_a_string_witness :
  isFuzzDomainArgs Samples.no_domain = false /\
  exists error st',
    callTool Node.runtime (Samples.call Samples.no_domain) (Node.start (Node.ready "[]"))
      = (inr (error_result error), st').
Proof.
  destruct (domain_must_be_a_string Node.runtime (Samples.call Samples.no_domain)
              (Node.start (Node.ready "[]")))
    as (Hinvalid & error & st' & _ & Hcall & _).
  - intros s. vm_compute. discriminate.
  - split; [exact Hinvalid|]. exists error, st'. exact Hcall.
Defined.

(** C5, as stated, fails: [{ domain: '' }] passes the guard, and the handler
    builds its argument list and runs [docker run] with it. *)
Lemma empty_domain_accepted :
  get Samples.empty_domain "domain" = JString EmptyString /\
  isFuzzDomainArgs Samples.empty_domain = true /\
  exists result st',
    callTool Node.runtime (Samples.call Samples.empty_domain)
             (Node.start (Node.ready "[]")) = (inr result, st') /\
    result = {| content := [ {| type := "text"; text := "[]" |} ]; isError := None |} /\
    issued st' =
      ["docker --version"; "docker image inspect elceef/dnstwist";
       docker_run_command
         [EmptyString; "--format"; "json"; "--registered"; "--nameservers";
          "1.1.1.1"; "-t"; "50"; "--mxcheck"; "-b"]].
Proof.
  split; [vm_compute; reflexivity|]. split; [vm_compute; reflexivity|].
  eexists _, _. split; [vm_compute; reflexivity|].
  split; vm_compute; reflexivity.
Qed.

Lemma unparseable_stdout_is_an_error_witness :
  JSON_parse Node.runtime "[" = inl "Unexpected end of JSON input" /\
  forall st : State Node.Machine,
    translate Node.runtime "[" st =
      (inl (Error "Failed to parse dnstwist output: SyntaxError: Unexpected end of JSON input"),
       st).
Proof.
  split; [vm_compute; reflexivity|].
  apply (proj1 (unparseable_stdout_is_an_error Node.runtime "["
                  "Unexpected end of JSON input" ltac:(vm_compute; reflexivity))).
Defined.

(** C7, as stated, fails: with [ as the captured stdout, [JSON.parse] throws
    and the text of the handler's result does not include the stdout. *)
Lemma raw_stdout_not_in_message :
  JSON_parse Node.runtime "[" = inl "Unexpected end of JSON input" /\
  exists st',
    callTool Node.runtime (Samples.call Samples.only_domain)
             (Node.start (Node.ready "["))
      = (inr {| content :=
                  [ {| type := "text";
                       text := "Error executing dnstwist: Failed to parse dnstwist output: SyntaxError: Unexpected end of JSON input" |} ];
                isError := Some true |}, st') /\
    String_includes
      "Error executing dnstwist: Failed to parse dnstwist output: SyntaxError: Unexpected end of JSON input"
      "[" = false.
Proof.
  split; [vm_compute; reflexivity|].
  eexists. split; vm_compute; reflexivity.
Qed.

Lemma csv_and_list_are_parsed_witness :
  exists st',
    callTool Node.runtime (Samples.call Samples.csv_format)
             (Node.start (Node.ready Samples.csv_stdout))
      = (inr {| content :=
                  [ {| type := "text";
                       text := "Error executing dnstwist: Failed to parse dnstwist output: SyntaxError: Unexpected token u in JSON at position 1" |} ];
                isError := Some true |}, st').
Proof.
  eexists.
  apply (csv_and_list_are_parsed Node.runtime (Samples.call Samples.csv_format)
           (Node.start (Node.ready Samples.csv_stdout))
           (after (after (Node.start (Node.ready Samples.csv_stdout))
                         (Node.ready Samples.csv_stdout) docker_version)
                  (Node.ready Samples.csv_stdout) docker_image_inspect)
           {| domain := "example.com"; nameservers := None; threads := None;
              format := Some Fcsv; registered_only := None; mxcheck := None;
              ssdeep := None; banners := None |}
           Samples.csv_stdout EmptyString
           "Unexpected token u in JSON at position 1"
           (Node.ready Samples.csv_stdout)).
  - vm_compute. reflexivity.
  - reflexivity.
  - vm_compute. reflexivity.
  - vm_compute. reflexivity.
  - left. reflexivity.
  - vm_compute. reflexivity.
  - vm_compute. reflexivity.
Defined.

(** Two calls in a row on a machine that has the image: the second call
    runs the two checks and no pull. *)
Lemma ensureSetup_no_pull_when_image_present_witness :
  let st1 := snd (ensureSetup Node.runtime (Node.start (Node.ready "[]"))) in
  exists commands,
    issued (snd (ensureSetup Node.runtime st1)) = issued st1 ++ commands /\
    commands = ["docker --version"; "docker image inspect elceef/dnstwist"] /\
    ~ In "docker pull elceef/dnstwist" commands.
Proof.
  intros st1.
  apply (proj2 (ensureSetup_no_pull_when_image_present Node.runtime st1
                  ("Docker version 24.0.7, build afdd53b" +:+ Node.LF) EmptyString
                  ("[{" +:+ Node.quoted "RepoTags" +:+ ":["
                   +:+ Node.quoted "elceef/dnstwist:latest" +:+ "]}]" +:+ Node.LF)
                  EmptyString (Node.ready "[]") (Node.ready "[]")
                  ltac:(vm_compute; reflexivity) ltac:(vm_compute; reflexivity))).
Defined.

(** ** The command line *)

(** C10: for a valid request the handler hands [execAsync] one string:
    docker run --rm, the image and the tokens, with one space between every
    two and nothing quoted.  So two requests with different argument lists
    can run the same command, and a domain with a space in it arrives as two
    words. *)
Theorem command_is_joined_unquoted :
  (forall (World Parsed : Type) (rt : Runtime World Parsed)
          (request : CallToolRequest) (st st1 : State World) (a : FuzzDomainArgs),
     ensureSetup rt st = (inr tt, st1) ->
     params_name request = "fuzz_domain" ->
     isFuzzDomainArgs (params_arguments request) = true ->
     as_FuzzDomainArgs (params_arguments request) = Some a ->
     issued (snd (callTool rt request st)) =
       issued st1 ++ ["docker run --rm elceef/dnstwist "
                      +:+ join " " (build_args (destructure a))]) /\
  (exists a1 a2,
     isFuzzDomainArgs Samples.smuggled_threads = true /\
     as_FuzzDomainArgs Samples.smuggled_threads = Some a1 /\
     isFuzzDomainArgs Samples.only_domain = true /\
     as_FuzzDomainArgs Samples.only_domain = Some a2 /\
     build_args (destructure a1) <> build_args (destructure a2) /\
     docker_run_command (build_args (destructure a1))
       = docker_run_command (build_args (destructure a2))) /\
  (exists a,
     isFuzzDomainArgs Samples.two_words = true /\
     as_FuzzDomainArgs Samples.two_words = Some a /\
     domain a = "example.com evil.org" /\
     shell_words (docker_run_command (build_args (destructure a)))
       = ["docker"; "run"; "--rm"; "elceef/dnstwist"; "example.com"; "evil.org";
          "--format"; "json"; "--registered"; "--nameservers"; "1.1.1.1";
          "-t"; "50"; "--mxcheck"; "-b"] /\
     ~ In (domain a) (shell_words (docker_run_command (build_args (destructure a)))) /\
     shell_words (docker_run_command (build_args (destructure a)))
       <> ["docker"; "run"; "--rm"; DOCKER_IMAGE] ++ build_args (destructure a)).
Proof.
  split; [|split].
  - intros World Parsed rt request st st1 a H Hname Hvalid Ha.
    rewrite callTool_state, (try_valid rt _ _ _ _ H Hname Hvalid Ha).
    unfold bind.
    pose proof (execCommand_issued rt
                  (docker_run_command (build_args (destructure a))) st1) as Hrun.
    destruct (execCommand rt (docker_run_command (build_args (destructure a))) st1)
      as [[error|out] st2]; cbn [snd] in Hrun |- *.
    + exact Hrun.
    + rewrite translate_state. exact Hrun.
  - eexists _, _.
    split; [vm_compute; reflexivity|]. split; [vm_compute; reflexivity|].
    split; [vm_compute; reflexivity|]. split; [vm_compute; reflexivity|].
    split; [vm_compute; discriminate | vm_compute; reflexivity].
  - eexists.
    split; [vm_compute; reflexivity|]. split; [vm_compute; reflexivity|].
    split; [reflexivity|]. split; [vm_compute; reflexivity|].
    split.
    + vm_compute. intros H.
      repeat (destruct H as [H|H]; [discriminate H|]). destruct H.
    + vm_compute. discriminate.
Qed.

Lemma command_is_joined_unquoted_witness :
  issued (snd (callTool Node.runtime (Samples.call Samples.two_words)
                 (Node.start (Node.ready "[]"))))
    = ["docker --version"; "docker image inspect elceef/dnstwist";
       "docker run --rm elceef/dnstwist example.com evil.org --format json --registered --nameservers 1.1.1.1 -t 50 --mxcheck -b"].
Proof.
  apply (proj1 command_is_joined_unquoted Node.Machine Node.Json Node.runtime
           (Samples.call Samples.two_words) (Node.start (Node.ready "[]"))
           (after (after (Node.start (Node.ready "[]")) (Node.ready "[]") docker_version)
                  (Node.ready "[]") docker_image_inspect)
           {| domain := "example.com evil.org"; nameservers := None; threads := None;
              format := None; registered_only := None; mxcheck := None;
              ssdeep := None; banners := None |}).
  - vm_compute. reflexivity.
  - reflexivity.
  - vm_compute. reflexivity.
  - vm_compute. reflexivity.
Defined.

(** * More of the code *)

(** ** The guard and the tool list *)

Lemma get_insert_other (fields : gmap string JsValue) (key k : string) (v : JsValue) :
  key <> k -> get (JObject (<[key:=v]> fields)) k = get (JObject fields) k.
Proof. intros H. unfold get. rewrite lookup_insert_ne by assumption. reflexivity. Qed.

Lemma get_insert_same (fields : gmap string JsValue) (key : string) (v : JsValue) :
  get (JObject (<[key:=v]> fields)) key = v.
Proof. unfold get. rewrite lookup_insert_eq. reflexivity. Qed.

(** The guard and the reading of the payload look at the eight names only. *)
Lemma same_fields_same_reading (fields fields' : gmap string JsValue) :
  (forall k, In k argument_names -> get (JObject fields') k = get (JObject fields) k) ->
  isFuzzDomainArgs (JObject fields') = isFuzzDomainArgs (JObject fields) /\
  as_FuzzDomainArgs (JObject fields') = as_FuzzDomainArgs (JObject fields).
Proof.
  intros H. unfold isFuzzDomainArgs, as_FuzzDomainArgs.
  cbn [truthy typeof TypeTag_eqb negb orb].
  rewrite !H by (unfold argument_names; cbn [In]; tauto).
  split; reflexivity.
Qed.

(** The properties of the schema are the names the guard reads. *)
Lemma property_names (key : string) :
  Tools.property key <> JUndefined <-> In key argument_names.
Proof.
  split.
  - intros H. unfold Tools.property, Tools.inputSchema, Tools.literal in H.
    change (get (JObject (list_to_map Tools.properties)) key <> JUndefined) in H.
    unfold get in H.
    destruct (list_to_map Tools.properties !! key) as [v|] eqn:Hv;
      [|destruct H; reflexivity].
    apply elem_of_list_to_map_2 in Hv. apply list_elem_of_In in Hv.
    unfold Tools.properties in Hv. cbn [In] in Hv. unfold argument_names. cbn [In].
    repeat (destruct Hv as [[= <- _]|Hv]; [tauto|]). destruct Hv.
  - unfold argument_names. cbn [In].
    intros H. repeat (destruct H as [<-|H]; [vm_compute; discriminate|]). destruct H.
Qed.

Section Guard.

Context {World Parsed : Type}.
Variable rt : Runtime World Parsed.

(** X1: a payload that is no object - undefined, null, a boolean, a number,
    a string, and also an array, which [typeof] calls an object - fails the
    guard; the handler answers with the error result after setup commands
    only. *)
Theorem non_object_arguments_rejected (request : CallToolRequest) (st : State World) :
  (forall fields, params_arguments request <> JObject fields) ->
  isFuzzDomainArgs (params_arguments request) = false /\
  exists error st',
    callTool rt request st = (inr (error_result error), st') /\
    exists commands,
      added st st' commands /\
      incl commands setup_commands /\
      forall tokens, ~ In (docker_run_command tokens) commands.
Proof.
  intros Hobject.
  assert (Hinvalid : isFuzzDomainArgs (params_arguments request) = false).
  { destruct (params_arguments request) as [| |b|n|s|items|fields];
      try (unfold isFuzzDomainArgs; simpl; rewrite ?orb_true_r; reflexivity).
    destruct (Hobject fields). reflexivity. }
  split; [assumption|].
  destruct (invalid_arguments_run_setup_only rt request st Hinvalid)
    as (error & st' & _ & Hcall & Hcommands & _).
  exists error, st'. split; [assumption|]. exact Hcommands.
Qed.

(** X2: a property the schema does not list changes nothing: with it or
    without it the guard gives the same answer, the payload reads the same,
    and the handler does the same. *)
Theorem unlisted_property_ignored (fields : gmap string JsValue) (key : string)
    (v : JsValue) (name : string) (st : State World) :
  Tools.property key = JUndefined ->
  isFuzzDomainArgs (JObject (<[key:=v]> fields)) = isFuzzDomainArgs (JObject fields) /\
  as_FuzzDomainArgs (JObject (<[key:=v]> fields)) = as_FuzzDomainArgs (JObject fields) /\
  callTool rt {| params_name := name; params_arguments := JObject (<[key:=v]> fields) |} st
    = callTool rt {| params_name := name; params_arguments := JObject fields |} st.
Proof.
  intros Hkey.
  assert (Hsame : forall k, In k argument_names ->
            get (JObject (<[key:=v]> fields)) k = get (JObject fields) k).
  { intros k Hk. apply get_insert_other. intros <-.
    apply property_names in Hk. contradiction. }
  destruct (same_fields_same_reading fields (<[key:=v]> fields) Hsame) as [Hguard Has].
  split; [assumption|]. split; [assumption|].
  unfold callTool, callTool_try. cbn [params_name params_arguments].
  rewrite Hguard, Has. reflexivity.
Qed.

End Guard.

(** X3: in a payload the guard accepts, a property that is there has the
    type the schema gives for it, and is one of the schema's [enum] values
    where the schema has an [enum]. *)
Theorem accepted_fields_have_listed_types (args : JsValue) (key : string) :
  isFuzzDomainArgs args = true ->
  Tools.property key <> JUndefined ->
  get args key <> JUndefined ->
  get (Tools.property key) "type" = JString (TypeTag_text (typeof (get args key))) /\
  (forall values, get (Tools.property key) "enum" = JArray values ->
                  In (get args key) values).
Proof.
  intros Hvalid Hkey Hthere. apply property_names in Hkey.
  destruct (isFuzzDomainArgs_bindings args Hvalid)
    as (a & _ & Hd & Hns & Ht & Hf & Hro & Hmx & Hss & Hb).
  cbn zeta in *.
  unfold argument_names in Hkey. cbn [In] in Hkey.
  destruct Hkey as [<-|[<-|[<-|[<-|[<-|[<-|[<-|[<-|[]]]]]]]]].
  - rewrite Hd. split; [vm_compute; reflexivity|]. intros values H. vm_compute in H.
    discriminate.
  - destruct Hns as [[Hns _]|Hns]; [contradiction|]. rewrite Hns.
    split; [vm_compute; reflexivity|]. intros values H. vm_compute in H. discriminate.
  - destruct Ht as [[Ht _]|Ht]; [contradiction|]. rewrite Ht.
    split; [vm_compute; reflexivity|]. intros values H. vm_compute in H. discriminate.
  - destruct Hf as [[Hf _]|Hf]; [contradiction|]. rewrite Hf.
    split; [vm_compute; reflexivity|]. intros values H. vm_compute in H.
    injection H as <-. destruct (req_format (destructure a)); cbn; tauto.
  - destruct Hro as [[Hro _]|Hro]; [contradiction|]. rewrite Hro.
    split; [vm_compute; reflexivity|]. intros values H. vm_compute in H. discriminate.
  - destruct Hmx as [[Hmx _]|Hmx]; [contradiction|]. rewrite Hmx.
    split; [vm_compute; reflexivity|]. intros values H. vm_compute in H. discriminate.
  - destruct Hss as [[Hss _]|Hss]; [contradiction|]. rewrite Hss.
    split; [vm_compute; reflexivity|]. intros values H. vm_compute in H. discriminate.
  - destruct Hb as [[Hb _]|Hb]; [contradiction|]. rewrite Hb.
    split; [vm_compute; reflexivity|]. intros values H. vm_compute in H. discriminate.
Qed.

Lemma get_missing (fields : gmap string JsValue) (key : string) :
  fields !! key = None -> get (JObject fields) key = JUndefined.
Proof. intros H. unfold get. rewrite H. reflexivity. Qed.

(** Setting a missing property to the default the schema gives for it does
    not change the guard's answer nor the bindings of the destructuring. *)
Lemma default_reads_as_missing (fields : gmap string JsValue) (key : string) :
  fields !! key = None ->
  Tools.default_of key <> JUndefined ->
  isFuzzDomainArgs (JObject (<[key := Tools.default_of key]> fields))
    = isFuzzDomainArgs (JObject fields) /\
  destructure <$> as_FuzzDomainArgs (JObject (<[key := Tools.default_of key]> fields))
    = destructure <$> as_FuzzDomainArgs (JObject fields).
Proof.
  intros Hmissing Hdefault.
  assert (Hkey : In key argument_names).
  { apply property_names. intros H. apply Hdefault.
    unfold Tools.default_of. rewrite H. reflexivity. }
  apply get_missing in Hmissing.
  unfold argument_names in Hkey. cbn [In] in Hkey.
  destruct Hkey as [<-|[<-|[<-|[<-|[<-|[<-|[<-|[<-|[]]]]]]]]];
    [destruct Hdefault; vm_compute; reflexivity | ..];
    unfold isFuzzDomainArgs, as_FuzzDomainArgs;
    cbn [truthy typeof TypeTag_eqb negb orb];
    rewrite get_insert_same, !get_insert_other by discriminate;
    rewrite Hmissing;
    match goal with
    | |- context [Tools.default_of ?k] =>
        let d := eval vm_compute in (Tools.default_of k) in
        change (Tools.default_of k) with d
    end;
    (split; [reflexivity|]);
    cbn; destruct_readings; reflexivity.
Qed.

Section Defaults.

Context {World Parsed : Type}.
Variable rt : Runtime World Parsed.

Lemma same_bindings_same_call (name : string) (args args' : JsValue) (st : State World) :
  isFuzzDomainArgs args' = isFuzzDomainArgs args ->
  destructure <$> as_FuzzDomainArgs args' = destructure <$> as_FuzzDomainArgs args ->
  callTool rt {| params_name := name; params_arguments := args' |} st
    = callTool rt {| params_name := name; params_arguments := args |} st.
Proof.
  intros Hguard Has. unfold callTool, callTool_try. cbn [params_name params_arguments].
  rewrite Hguard.
  destruct (isFuzzDomainArgs args); [|reflexivity].
  destruct (as_FuzzDomainArgs args') as [a'|], (as_FuzzDomainArgs args) as [a|];
    cbn in Has; try discriminate; [|reflexivity].
  assert (H : destructure a' = destructure a) by congruence.
  rewrite H. reflexivity.
Qed.

(** X4: the defaults of the schema are the defaults of the handler.  For a
    payload without some property, setting the property to the default the
    schema gives for it changes neither the guard's answer, nor the bindings
    the argument list is built from, nor what the handler does. *)
Theorem listed_default_same_as_missing (fields : gmap string JsValue) (key name : string)
    (st : State World) :
  fields !! key = None ->
  Tools.default_of key <> JUndefined ->
  isFuzzDomainArgs (JObject (<[key := Tools.default_of key]> fields))
    = isFuzzDomainArgs (JObject fields) /\
  destructure <$> as_FuzzDomainArgs (JObject (<[key := Tools.default_of key]> fields))
    = destructure <$> as_FuzzDomainArgs (JObject fields) /\
  callTool rt {| params_name := name;
                 params_arguments := JObject (<[key := Tools.default_of key]> fields) |} st
    = callTool rt {| params_name := name; params_arguments := JObject fields |} st.
Proof.
  intros Hmissing Hdefault.
  destruct (default_reads_as_missing fields key Hmissing Hdefault) as [Hguard Has].
  split; [assumption|]. split; [assumption|].
  apply same_bindings_same_call; assumption.
Qed.

End Defaults.

(** ** [execCommand] and [ensureSetup] *)

Section Setup.

Context {World Parsed : Type}.
Variable rt : Runtime World Parsed.

(** X5: [execCommand] adds nothing to [exec] but the log: it runs its
    command once, with a buffer of 10485760 bytes, returns the output when
    the command resolves and throws the very error when it rejects. *)
Theorem execCommand_transparent (command : string) (st : State World) :
  exists outcome w,
    execAsync rt command 10485760 (world st) = (outcome, w) /\
    snd (execCommand rt command st) = after st w command /\
    fst (execCommand rt command st) =
      match outcome with
      | Resolved stdout stderr => inr (stdout, stderr)
      | Rejected error => inl error
      end.
Proof.
  change 10485760%N with MAX_BUFFER.
  destruct (execAsync rt command MAX_BUFFER (world st)) as [[stdout stderr|error] w] eqn:H;
    eexists _, w; (split; [reflexivity|]).
  - rewrite (execCommand_resolved rt _ _ _ _ _ H). split; reflexivity.
  - rewrite (execCommand_rejected rt _ _ _ _ H). split; reflexivity.
Qed.

(** X6: when [docker --version] fails, whatever its error, [ensureSetup]
    throws the fixed message about Docker after this one command, and the
    handler answers every request with that message and the error flag. *)
Theorem docker_unavailable (request : CallToolRequest) (st : State World)
    (error : Thrown) (w : World) :
  execAsync rt "docker --version" MAX_BUFFER (world st) = (Rejected error, w) ->
  ensureSetup rt st =
    (inl (Error "Docker is not installed or not running. Please install Docker and try again."),
     after st w "docker --version") /\
  callTool rt request st =
    (inr {| content :=
              [ {| type := "text";
                   text := "Error executing dnstwist: Docker is not installed or not running. Please install Docker and try again." |} ];
            isError := Some true |},
     after st w "docker --version").
Proof.
  intros H. pose proof (ensureSetup_no_docker rt st error w H) as Hsetup.
  split; [exact Hsetup|].
  rewrite (callTool_catches rt _ _ _ _ (try_setup_failed rt request _ _ _ Hsetup)).
  reflexivity.
Qed.

(** X7: when the image is not there - [docker image inspect] fails - and
    [docker pull] succeeds, [ensureSetup] succeeds after the three commands,
    in this order. *)
Theorem missing_image_is_pulled (st : State World) (out1 err1 out3 err3 : string)
    (error : Thrown) (w1 w2 w3 : World) :
  execAsync rt "docker --version" MAX_BUFFER (world st) = (Resolved out1 err1, w1) ->
  execAsync rt "docker image inspect elceef/dnstwist" MAX_BUFFER w1 = (Rejected error, w2) ->
  execAsync rt "docker pull elceef/dnstwist" MAX_BUFFER w2 = (Resolved out3 err3, w3) ->
  fst (ensureSetup rt st) = inr tt /\
  world (snd (ensureSetup rt st)) = w3 /\
  added st (snd (ensureSetup rt st))
    ["docker --version"; "docker image inspect elceef/dnstwist";
     "docker pull elceef/dnstwist"].
Proof.
  intros H1 H2 H3.
  rewrite (ensureSetup_image_pulled rt _ _ _ _ _ _ _ _ _ H1 H2 H3).
  split; [reflexivity|]. split; [reflexivity|].
  unfold added. cbn [snd after issued]. rewrite <- !app_assoc. reflexivity.
Qed.

(** X8: when the image is not there and [docker pull] fails, [ensureSetup]
    throws the error of the pull, not the one of the inspect, and the
    handler answers with the message of that error. *)
Theorem failed_pull_is_reported (request : CallToolRequest) (st : State World)
    (out1 err1 : string) (error error' : Thrown) (w1 w2 w3 : World) :
  execAsync rt "docker --version" MAX_BUFFER (world st) = (Resolved out1 err1, w1) ->
  execAsync rt "docker image inspect elceef/dnstwist" MAX_BUFFER w1 = (Rejected error, w2) ->
  execAsync rt "docker pull elceef/dnstwist" MAX_BUFFER w2 = (Rejected error', w3) ->
  fst (ensureSetup rt st) = inl error' /\
  fst (callTool rt request st) = inr (error_result error') /\
  added st (snd (callTool rt request st))
    ["docker --version"; "docker image inspect elceef/dnstwist";
     "docker pull elceef/dnstwist"].
Proof.
  intros H1 H2 H3.
  pose proof (ensureSetup_pull_failed rt _ _ _ _ _ _ _ _ H1 H2 H3) as Hsetup.
  rewrite Hsetup.
  rewrite (callTool_catches rt _ _ _ _ (try_setup_failed rt request _ _ _ Hsetup)).
  split; [reflexivity|]. split; [reflexivity|].
  unfold added. cbn [snd after issued]. rewrite <- !app_assoc. reflexivity.
Qed.

(** X9: [ensureSetup] runs one, two or three commands, always from the
    start of the list version, inspect, pull: the version check comes
    first, no pull without an inspect before it, and no success without the
    inspect having run. *)
Theorem ensureSetup_commands (st : State World) :
  exists n,
    1 <= n <= 3 /\
    added st (snd (ensureSetup rt st)) (firstn n setup_commands) /\
    (fst (ensureSetup rt st) = inr tt -> 2 <= n).
Proof.
  unfold added.
  destruct (execAsync rt docker_version MAX_BUFFER (world st))
    as [[out1 err1|e1] w1] eqn:H1.
  2:{ rewrite (ensureSetup_no_docker rt _ _ _ H1). exists 1.
      split; [lia|]. split; [reflexivity|]. discriminate. }
  destruct (execAsync rt docker_image_inspect MAX_BUFFER w1)
    as [[out2 err2|e2] w2] eqn:H2.
  { rewrite (ensureSetup_image_found rt _ _ _ _ _ _ _ H1 H2). exists 2.
    split; [lia|]. split; [|lia].
    cbn [snd after issued]. rewrite <- app_assoc. reflexivity. }
  destruct (execAsync rt docker_pull MAX_BUFFER w2) as [[out3 err3|e3] w3] eqn:H3.
  - rewrite (ensureSetup_image_pulled rt _ _ _ _ _ _ _ _ _ H1 H2 H3). exists 3.
    split; [lia|]. split; [|lia].
    cbn [snd after issued]. rewrite <- !app_assoc. reflexivity.
  - rewrite (ensureSetup_pull_failed rt _ _ _ _ _ _ _ _ H1 H2 H3). exists 3.
    split; [lia|]. split; [|lia].
    cbn [snd after issued]. rewrite <- !app_assoc. reflexivity.
Qed.

End Setup.

(** ** The handler's ways out *)

Section Outcomes.

Context {World Parsed : Type}.
Variable rt : Runtime World Parsed.

(** The [try] block leaves in one of six ways. *)
Lemma callTool_try_cases (request : CallToolRequest) (st : State World) :
  (exists error st1,
     ensureSetup rt st = (inl error, st1) /\
     callTool_try rt request st = (inl error, st1)) \/
  (exists st1,
     ensureSetup rt st = (inr tt, st1) /\
     params_name request <> "fuzz_domain" /\
     callTool_try rt request st =
       (inl (McpError rt MethodNotFound ("Unknown tool: " +:+ params_name request)),
        st1)) \/
  (exists st1,
     ensureSetup rt st = (inr tt, st1) /\
     params_name request = "fuzz_domain" /\
     isFuzzDomainArgs (params_arguments request) = false /\
     callTool_try rt request st =
       (inl (McpError rt InvalidParams "Invalid arguments for fuzz_domain"), st1)) \/
  (exists st1 a,
     ensureSetup rt st = (inr tt, st1) /\
     params_name request = "fuzz_domain" /\
     as_FuzzDomainArgs (params_arguments request) = Some a /\
     let command := docker_run_command (build_args (destructure a)) in
     (exists error w,
        execAsync rt command MAX_BUFFER (world st1) = (Rejected error, w) /\
        callTool_try rt request st = (inl error, after st1 w command)) \/
     (exists stdout stderr message w,
        execAsync rt command MAX_BUFFER (world st1) = (Resolved stdout stderr, w) /\
        JSON_parse rt stdout = inl message /\
        callTool_try rt request st =
          (inl (Error ("Failed to parse dnstwist output: "
                       +:+ String_of (ErrorObject "SyntaxError" message))),
           after st1 w command)) \/
     (exists stdout stderr results w,
        execAsync rt command MAX_BUFFER (world st1) = (Resolved stdout stderr, w) /\
        JSON_parse rt stdout = inr results /\
        callTool_try rt request st =
          (inr {| content := [ {| type := "text"; text := JSON_stringify rt results |} ];
                  isError := None |},
           after st1 w command))).
Proof.
  destruct (ensureSetup rt st) as [[error|[]] st1] eqn:Hsetup.
  { left. exists error, st1. split; [reflexivity|]. apply try_setup_failed, Hsetup. }
  right.
  destruct (String.eqb_spec (params_name request) "fuzz_domain") as [Hname|Hname].
  2:{ left. exists st1. split; [reflexivity|]. split; [assumption|].
      apply try_unknown_tool; assumption. }
  right.
  destruct (isFuzzDomainArgs (params_arguments request)) eqn:Hvalid.
  2:{ left. exists st1. split; [reflexivity|]. split; [assumption|].
      split; [reflexivity|]. apply try_invalid_arguments; assumption. }
  right.
  destruct (isFuzzDomainArgs_sound _ Hvalid) as (a & Ha & _).
  exists st1, a. split; [reflexivity|]. split; [assumption|]. split; [assumption|].
  intros command.
  destruct (execAsync rt command MAX_BUFFER (world st1))
    as [[stdout stderr|error] w] eqn:Hrun.
  2:{ left. exists error, w. split; [reflexivity|].
      eapply try_run_failed; eassumption. }
  right.
  destruct (JSON_parse rt stdout) as [message|results] eqn:Hparse.
  - left. exists stdout, stderr, message, w. split; [reflexivity|].
    split; [assumption|]. eapply try_parse_failed; eassumption.
  - right. exists stdout, stderr, results, w. split; [reflexivity|].
    split; [assumption|]. eapply try_parsed; eassumption.
Qed.

(** X10: a name the tool list does not have is an unknown tool: after a
    successful setup the handler answers with the McpError for Unknown tool
    and the name, without looking at the arguments and without running
    anything more.  The name of the list goes on to the guard. *)
Theorem unlisted_tool_is_unknown (request : CallToolRequest) (st st1 : State World) :
  ensureSetup rt st = (inr tt, st1) ->
  (~ In (JString (params_name request)) (Tools.advertised_names Tools.tools_list) ->
   callTool rt request st =
     (inr (error_result
             (McpError rt MethodNotFound ("Unknown tool: " +:+ params_name request))),
      st1)) /\
  (In (JString (params_name request)) (Tools.advertised_names Tools.tools_list) ->
   isFuzzDomainArgs (params_arguments request) = false ->
   callTool rt request st =
     (inr (error_result (McpError rt InvalidParams "Invalid arguments for fuzz_domain")),
      st1)).
Proof.
  intros Hsetup.
  assert (Hnames : Tools.advertised_names Tools.tools_list = [JString "fuzz_domain"])
    by (vm_compute; reflexivity).
  rewrite Hnames. cbn [In]. split.
  - intros Hname. apply callTool_catches, try_unknown_tool; [assumption|].
    intros H. apply Hname. left. rewrite H. reflexivity.
  - intros [[= Hname]|[]] Hinvalid.
    apply callTool_catches, try_invalid_arguments; auto.
Qed.

(** X11: the commands of one call.  The handler runs the commands of the
    setup, the version check first, and then at most one [docker run], which
    is the last command; it runs it only after a successful setup, for the
    tool fuzz_domain and for arguments that read as a [FuzzDomainArgs], and
    then the command is the one built from these arguments.  One call runs
    four commands at most. *)
Theorem callTool_commands (request : CallToolRequest) (st : State World) :
  exists n run,
    1 <= n <= 3 /\
    added st (snd (callTool rt request st)) (firstn n setup_commands ++ run) /\
    (run = [] \/
     exists a,
       fst (ensureSetup rt st) = inr tt /\
       params_name request = "fuzz_domain" /\
       as_FuzzDomainArgs (params_arguments request) = Some a /\
       run = [docker_run_command (build_args (destructure a))]).
Proof.
  destruct (ensureSetup_commands rt st) as (n & Hn & Hsetup & _).
  exists n. unfold added in *. rewrite callTool_state.
  destruct (callTool_try_cases request st)
    as [(error & st1 & H & Htry)
       |[(st1 & H & _ & Htry)
        |[(st1 & H & _ & _ & Htry)
         |(st1 & a & H & Hname & Ha & Hrun)]]];
    rewrite H in Hsetup; cbn [snd] in Hsetup.
  1-3: exists []; rewrite Htry; cbn [snd]; rewrite app_nil_r;
       split; [assumption|]; split; [assumption|]; left; reflexivity.
  exists [docker_run_command (build_args (destructure a))].
  split; [assumption|]. split.
  - cbn zeta in Hrun.
    destruct Hrun as [(error & w & _ & Htry)
                     |[(stdout & stderr & message & w & _ & _ & Htry)
                      |(stdout & stderr & results & w & _ & _ & Htry)]];
      rewrite Htry; cbn [snd after issued]; rewrite Hsetup, <- app_assoc; reflexivity.
  - right. exists a. rewrite H. auto.
Qed.

(** X12: the good case.  After a successful setup, for valid arguments,
    when [docker run] resolves and [JSON.parse] accepts its stdout, the
    handler returns one text item, the parsed value as [JSON.stringify]
    prints it, and no error flag; what the command wrote to stderr plays no
    part. *)
Theorem parsed_output_is_returned (request : CallToolRequest) (st st1 : State World)
    (a : FuzzDomainArgs) (stdout stderr : string) (results : Parsed) (w : World) :
  ensureSetup rt st = (inr tt, st1) ->
  params_name request = "fuzz_domain" ->
  isFuzzDomainArgs (params_arguments request) = true ->
  as_FuzzDomainArgs (params_arguments request) = Some a ->
  execAsync rt (docker_run_command (build_args (destructure a))) MAX_BUFFER (world st1)
    = (Resolved stdout stderr, w) ->
  JSON_parse rt stdout = inr results ->
  callTool rt request st =
    (inr {| content := [ {| type := "text"; text := JSON_stringify rt results |} ];
            isError := None |},
     after st1 w (docker_run_command (build_args (destructure a)))).
Proof.
  intros H Hname Hvalid Ha Hrun Hparse.
  apply callTool_returns. eapply try_parsed; eassumption.
Qed.

(** X13: the shape of every result.  The handler returns exactly one item,
    of type text.  The error flag is either missing or true, never false;
    it is true exactly when the [try] block threw, and then the text is the
    prefix and the message; it is missing exactly when the output of the
    tool was parsed, and then the text is that value printed. *)
Theorem result_shape (request : CallToolRequest) (st : State World) :
  exists item st',
    callTool rt request st =
      (inr {| content := [ {| type := "text"; text := item |} ];
              isError := match fst (callTool_try rt request st) with
                         | inl _ => Some true
                         | inr _ => None
                         end |},
       st') /\
    match fst (callTool_try rt request st) with
    | inl error => item = "Error executing dnstwist: " +:+ errorMessage error
    | inr _ => exists results, item = JSON_stringify rt results
    end.
Proof.
  destruct (callTool_try_cases request st)
    as [(error & st1 & _ & Htry)
       |[(st1 & _ & _ & Htry)
        |[(st1 & _ & _ & _ & Htry)
         |(st1 & a & _ & _ & _ & Hrun)]]].
  1-3: rewrite (callTool_catches rt _ _ _ _ Htry), Htry; cbn [fst];
       eexists _, _; split; reflexivity.
  cbn zeta in Hrun.
  destruct Hrun as [(error & w & _ & Htry)
                   |[(stdout & stderr & message & w & _ & _ & Htry)
                    |(stdout & stderr & results & w & _ & _ & Htry)]].
  1-2: rewrite (callTool_catches rt _ _ _ _ Htry), Htry; cbn [fst];
       eexists _, _; split; reflexivity.
  rewrite (callTool_returns rt _ _ _ _ Htry), Htry. cbn [fst].
  eexists _, _. split; [reflexivity|]. exists results. reflexivity.
Qed.

End Outcomes.

(** ** The argument list and the command line *)

(** X14: the name servers.  For a payload the guard accepts, a missing
    field gives --nameservers 1.1.1.1 and a field that is not the empty
    string gives --nameservers and its value; the empty string gives no
    --nameservers at all, so that the token can only be the text of the
    domain or of the threads. *)
Theorem nameservers_flag (args : JsValue) :
  isFuzzDomainArgs args = true ->
  exists a, as_FuzzDomainArgs args = Some a /\
    let r := destructure a in
    (get args "nameservers" = JUndefined ->
     followed_by "--nameservers" "1.1.1.1" (build_args r)) /\
    (req_nameservers r <> EmptyString ->
     followed_by "--nameservers" (req_nameservers r) (build_args r)) /\
    (get args "nameservers" = JString EmptyString ->
     req_nameservers r = EmptyString /\
     (In "--nameservers" (build_args r) ->
      req_domain r = "--nameservers" \/
      Number_toString (req_threads r) = "--nameservers")).
Proof.
  intros Hvalid.
  destruct (isFuzzDomainArgs_bindings args Hvalid) as (a & Ha & Hfields).
  exists a. split; [assumption|]. intros r.
  destruct Hfields as (_ & Hns & _). fold r in Hns.
  assert (Hon : req_nameservers r <> EmptyString ->
            followed_by "--nameservers" (req_nameservers r) (build_args r)).
  { intros Hne. rewrite build_args_unfold.
    destruct (req_nameservers r) as [|c ns] eqn:E; [contradiction|].
    cbn [string_truthy]. rewrite app_assoc.
    apply followed_by_app. exists [], []. reflexivity. }
  split; [|split; [assumption|]].
  - intros Hmissing. destruct Hns as [[_ Hns] | Hns]; [|congruence].
    rewrite Hns in Hon. apply Hon. discriminate.
  - intros Hempty. destruct Hns as [[Hns _] | Hns]; [congruence|].
    assert (E : req_nameservers r = EmptyString) by congruence.
    split; [assumption|].
    intros Hin. rewrite build_args_unfold, E in Hin. cbn [string_truthy] in Hin.
    repeat (apply in_app_or in Hin as [Hin|Hin]).
    + cbn [In] in Hin. destruct Hin as [<-|[Hin|[Hin|[]]]]; auto; try discriminate.
      destruct (req_format r); discriminate.
    + destruct (req_registered_only r); cbn [flag In] in Hin;
        [destruct Hin as [Hin|[]]; discriminate | destruct Hin].
    + destruct Hin.
    + destruct (number_truthy (req_threads r)); cbn [In] in Hin;
        [destruct Hin as [Hin|[<-|[]]]; [discriminate | auto] | destruct Hin].
    + destruct (req_mxcheck r); cbn [flag In] in Hin;
        [destruct Hin as [Hin|[]]; discriminate | destruct Hin].
    + destruct (req_ssdeep r); cbn [flag In] in Hin;
        [destruct Hin as [Hin|[]]; discriminate | destruct Hin].
    + destruct (req_banners r); cbn [flag In] in Hin;
        [destruct Hin as [Hin|[]]; discriminate | destruct Hin].
Qed.

#[local] Arguments String.append !s1 s2 : simpl nomatch.










(** ** Runs of the added properties *)

Lemma non_object_arguments_rejected_witness :
  isFuzzDomainArgs Cases.array_payload = false /\
  exists error st',
    callTool Node.runtime (Samples.call Cases.array_payload) (Node.start (Node.ready "[]"))
      = (inr (error_result error), st') /\
    exists commands,
      added (Node.start (Node.ready "[]")) st' commands /\
      incl commands setup_commands /\
      forall tokens, ~ In (docker_run_command tokens) commands.
Proof.
  apply (non_object_arguments_rejected Node.runtime (Samples.call Cases.array_payload)
           (Node.start (Node.ready "[]"))).
  intros fields. cbn. discriminate.
Defined.

Lemma unlisted_property_ignored_witness :
  isFuzzDomainArgs (JObject (<["verbose" := JBoolean true]> Cases.domain_only))
    = isFuzzDomainArgs (JObject Cases.domain_only) /\
  as_FuzzDomainArgs (JObject (<["verbose" := JBoolean true]> Cases.domain_only))
    = as_FuzzDomainArgs (JObject Cases.domain_only) /\
  callTool Node.runtime
      {| params_name := "fuzz_domain";
         params_arguments := JObject (<["verbose" := JBoolean true]> Cases.domain_only) |}
      (Node.start (Node.ready "[]"))
    = callTool Node.runtime
        {| params_name := "fuzz_domain"; params_arguments := JObject Cases.domain_only |}
        (Node.start (Node.ready "[]")).
Proof.
  apply (unlisted_property_ignored Node.runtime Cases.domain_only "verbose"
           (JBoolean true) "fuzz_domain" (Node.start (Node.ready "[]"))).
  vm_compute. reflexivity.
Defined.

Lemma accepted_fields_have_listed_types_witness :
  get (Tools.property "format") "type"
    = JString (TypeTag_text (typeof (get Samples.csv_format "format"))) /\
  (forall values, get (Tools.property "format") "enum" = JArray values ->
                  In (get Samples.csv_format "format") values).
Proof.
  apply (accepted_fields_have_listed_types Samples.csv_format "format").
  - vm_compute. reflexivity.
  - vm_compute. discriminate.
  - vm_compute. discriminate.
Defined.

Lemma listed_default_same_as_missing_witness :
  destructure <$> as_FuzzDomainArgs
                    (JObject (<["threads" := Tools.default_of "threads"]> Cases.domain_only))
    = destructure <$> as_FuzzDomainArgs (JObject Cases.domain_only).
Proof.
  apply (listed_default_same_as_missing Node.runtime Cases.domain_only "threads"
           "fuzz_domain" (Node.start (Node.ready "[]"))).
  - vm_compute. reflexivity.
  - vm_compute. discriminate.
Defined.

Lemma docker_unavailable_witness :
  fst (callTool Node.runtime (Samples.call Samples.only_domain) (Node.start Cases.no_docker))
    = inr {| content :=
               [ {| type := "text";
                    text := "Error executing dnstwist: Docker is not installed or not running. Please install Docker and try again." |} ];
             isError := Some true |}.
Proof.
  rewrite (proj2 (docker_unavailable Node.runtime (Samples.call Samples.only_domain)
                    (Node.start Cases.no_docker)
                    (Error ("Command failed: docker --version" +:+ Node.LF
                            +:+ "/bin/sh: 1: docker: not found" +:+ Node.LF))
                    Cases.no_docker ltac:(vm_compute; reflexivity))).
  reflexivity.
Defined.

Lemma missing_image_is_pulled_witness :
  fst (ensureSetup Node.runtime (Node.start Cases.no_image)) = inr tt /\
  world (snd (ensureSetup Node.runtime (Node.start Cases.no_image)))
    = Node.with_image Cases.no_image /\
  added (Node.start Cases.no_image)
    (snd (ensureSetup Node.runtime (Node.start Cases.no_image)))
    ["docker --version"; "docker image inspect elceef/dnstwist";
     "docker pull elceef/dnstwist"].
Proof.
  eapply (missing_image_is_pulled Node.runtime (Node.start Cases.no_image)).
  - vm_compute. reflexivity.
  - vm_compute. reflexivity.
  - vm_compute. reflexivity.
Defined.

Lemma failed_pull_is_reported_witness :
  exists error,
    fst (ensureSetup Node.runtime (Node.start Cases.offline)) = inl error /\
    fst (callTool Node.runtime (Samples.call Samples.only_domain)
           (Node.start Cases.offline)) = inr (error_result error) /\
    added (Node.start Cases.offline)
      (snd (callTool Node.runtime (Samples.call Samples.only_domain)
              (Node.start Cases.offline)))
      ["docker --version"; "docker image inspect elceef/dnstwist";
       "docker pull elceef/dnstwist"].
Proof.
  eexists.
  eapply (failed_pull_is_reported Node.runtime (Samples.call Samples.only_domain)
            (Node.start Cases.offline)).
  - vm_compute. reflexivity.
  - vm_compute. reflexivity.
  - vm_compute. reflexivity.
Defined.

Lemma unlisted_tool_is_unknown_witness :
  fst (callTool Node.runtime
         {| params_name := "scan"; params_arguments := Samples.only_domain |}
         (Node.start (Node.ready "[]")))
    = inr (error_result (ErrorObject "McpError" "MCP error -32601: Unknown tool: scan")).
Proof.
  rewrite (proj1 (unlisted_tool_is_unknown Node.runtime
                    {| params_name := "scan"; params_arguments := Samples.only_domain |}
                    (Node.start (Node.ready "[]"))
                    (after (after (Node.start (Node.ready "[]")) (Node.ready "[]")
                                  docker_version)
                           (Node.ready "[]") docker_image_inspect)
                    ltac:(vm_compute; reflexivity))).
  - reflexivity.
  - vm_compute. intros [H|[]]. discriminate H.
Defined.

Lemma parsed_output_is_returned_witness :
  fst (callTool Node.runtime (Samples.call Samples.only_domain)
         (Node.start (Node.ready "[]")))
    = inr {| content := [ {| type := "text"; text := "[]" |} ]; isError := None |}.
Proof.
  rewrite (parsed_output_is_returned Node.runtime (Samples.call Samples.only_domain)
             (Node.start (Node.ready "[]"))
             (after (after (Node.start (Node.ready "[]")) (Node.ready "[]") docker_version)
                    (Node.ready "[]") docker_image_inspect)
             {| domain := "example.com"; nameservers := None; threads := None;
                format := None; registered_only := None; mxcheck := None;
                ssdeep := None; banners := None |}
             "[]" EmptyString (Node.JsonArray []) (Node.ready "[]")
             ltac:(vm_compute; reflexivity) ltac:(reflexivity)
             ltac:(vm_compute; reflexivity) ltac:(vm_compute; reflexivity)
             ltac:(vm_compute; reflexivity) ltac:(vm_compute; reflexivity)).
  reflexivity.
Defined.

Lemma nameservers_flag_witness :
  exists a, as_FuzzDomainArgs Cases.empty_nameservers = Some a /\
    build_args (destructure a)
      = ["example.com"; "--format"; "json"; "--registered"; "-t"; "50"; "--mxcheck"; "-b"].
Proof.
  destruct (nameservers_flag Cases.empty_nameservers) as (a & Ha & _).
  - vm_compute. reflexivity.
  - exists a. split; [exact Ha|].
    vm_compute in Ha. injection Ha as <-. vm_compute. reflexivity.
Defined.

